(** * Call report generator: the report computation of [app.py]

    A shallow embedding of [calculate_report] (src/app.py, lines 6-109):
    the pandas data frame it receives, the in-place column assignments it
    performs on the caller's frame, the reduction of attempts to the latest
    state per lead, the category tables and the per-bot summary matrix.

    Library routines whose exact behaviour is outside the program
    (date parsing, numeric parsing, Unicode trimming and lower-casing, the
    unstable sort behind [sort_values], floating-point division and
    rounding) are the fields of the class [Pandas]; what the proofs need to
    know about them is the class [PandasLaws].  [RefLib] at the end of the
    definitions is an executable instance. *)

From Stdlib Require Import ZArith QArith String Ascii.
From stdpp Require Import base option list sorting strings pretty gmap.

Local Open Scope string_scope.
Local Open Scope Z_scope.

(** ** Cells and frames *)

(** A cell of a data frame.  [NaN] stands for every missing value
    ([NaN], [None], [NaT]); [Time] is a timestamp; [Flag] is a boolean
    and only occurs in the derived flag columns. *)
Inductive cell :=
  | NaN
  | Str (s : string)
  | Num (z : Z)
  | Time (t : Z)
  | Flag (b : bool).

#[global] Instance cell_eq_dec : EqDecision cell.
Proof. solve_decision. Defined.

#[global] Instance cell_inhabited : Inhabited cell := populate NaN.

(** A frame: its column labels in order, and its rows; a row maps each
    column label to the cell it holds. *)
Record DataFrame := mkDF {
  columns : list string;
  rows : list (gmap string cell)
}.

(** [row[c]] *)
Definition cell_at (c : string) (r : gmap string cell) : cell :=
  default NaN (r !! c).

(** The series [df[c]] of a frame that has column [c]. *)
Definition series (c : string) (rs : list (gmap string cell)) : list cell :=
  cell_at c <$> rs.

(** [pd.isna] / [pd.notna] on one cell. *)
Definition isna (c : cell) : bool :=
  match c with NaN => true | _ => false end.

Definition notna (c : cell) : bool := negb (isna c).

(** Elementwise [==] of pandas: a missing value equals nothing. *)
Definition py_eq (a b : cell) : bool :=
  match a, b with
  | NaN, _ | _, NaN => false
  | _, _ => bool_decide (a = b)
  end.

(** [Series.fillna(v)] *)
Definition fillna (v : cell) (c : cell) : cell :=
  if isna c then v else c.

(** A method of the [.str] accessor, on one cell of a column that has the
    accessor ([str_accessor] below): it is applied to a string and yields a
    missing value for every other cell. *)
Definition str_method (f : string → string) (c : cell) : cell :=
  match c with Str s => Str (f s) | _ => NaN end.

(** [Series.unique()]: the distinct values in order of first appearance. *)
Fixpoint unique `{EqDecision A} (l : list A) : list A :=
  match l with
  | [] => []
  | x :: l' => x :: filter (λ y, y ≠ x) (unique l')
  end.

(** [Series.nunique()]: missing values are not counted. *)
Definition nunique (l : list cell) : Z :=
  Z.of_nat (length (unique (filter (λ c, notna c = true) l))).

(** [df[c] = vals], on the rows. *)
Definition assign (c : string) (vals : list cell) (d : DataFrame) : DataFrame :=
  {| columns := if bool_decide (c ∈ columns d) then columns d else columns d ++ [c];
     rows := zip_with (λ r v, <[c := v]> r) (rows d) vals |}.

(** [df[mask]] for a mask computed row by row. *)
Definition select (p : gmap string cell → bool) (d : DataFrame) : DataFrame :=
  {| columns := columns d; rows := filter (λ r, p r = true) (rows d) |}.

(** [df[cols]]: the listed columns only. *)
Definition project (cols : list string) (d : DataFrame) : DataFrame :=
  {| columns := cols;
     rows := (λ r, list_to_map ((λ c, (c, cell_at c r)) <$> cols)) <$> rows d |}.

(** ** The order of cells *)

(** Values of one kind are ordered among themselves: strings by code
    points, numbers and timestamps by value.  Kinds are ranked so that the
    order is total; missing values come last, as pandas places them. *)
Definition kind (c : cell) : Z :=
  match c with Flag _ => 0 | Num _ => 1 | Time _ => 2 | Str _ => 3 | NaN => 4 end.

Definition cell_leb (a b : cell) : bool :=
  match a, b with
  | Str s, Str t => String.leb s t
  | Num x, Num y => x <=? y
  | Time x, Time y => x <=? y
  | Flag x, Flag y => implb x y
  | _, _ => kind a <=? kind b
  end.

Definition cell_le (a b : cell) : Prop := cell_leb a b = true.

#[global] Instance cell_le_dec a b : Decision (cell_le a b).
Proof. unfold cell_le. apply _. Defined.

(** Keys of a [groupby] on several columns are ordered lexicographically. *)
Fixpoint key_leb (k1 k2 : list cell) : bool :=
  match k1, k2 with
  | [], _ => true
  | _ :: _, [] => false
  | a :: k1', b :: k2' =>
      if bool_decide (a = b) then key_leb k1' k2' else cell_leb a b
  end.

Definition key_le (k1 k2 : list cell) : Prop := key_leb k1 k2 = true.

#[global] Instance key_le_dec k1 k2 : Decision (key_le k1 k2).
Proof. unfold key_le. apply _. Defined.

(** ** Exceptions and the built-in [sorted] *)

Inductive exn :=
  | KeyError (k : string)
  | TypeError
  | AttributeError
  | Dangling.

(** [sorted(l)] compares the elements with [<], which Python refuses
    between a string and a number. *)
Definition same_kind (l : list cell) : bool :=
  match l with
  | [] => true
  | x :: l' => forallb (λ y, kind y =? kind x) l'
  end.

Definition py_sorted (l : list cell) : exn + list cell :=
  if same_kind l then inr (merge_sort cell_le l) else inl TypeError.

(** ** The [.str] accessor *)

Definition is_str (c : cell) : bool :=
  match c with Str _ => true | _ => false end.

(** [col.str]: pandas grants the accessor by the inferred type of the
    column and raises [AttributeError] for every other column.
    - A column that holds a string is an object column of inferred type
      "string", "mixed" or "mixed-integer": granted.
    - A column without a string that holds values of several kinds is an
      object column of inferred type "mixed" or "mixed-integer": granted.
    - A column whose values, missing ones apart, are numbers only,
      timestamps only or booleans only is refused, whatever its dtype.
    - For a column of missing values only, and for a column without rows,
      the dtype decides.  A frame holds no dtypes here: such a column has
      the dtype that [read_csv] and [read_excel], the readers of the
      script, give it.  A column of missing values only is a float64
      column: refused.  A column without rows is an object column of
      inferred type "empty": granted. *)
Definition str_accessor (col : list cell) : exn + list cell :=
  match col with
  | [] => inr col
  | _ =>
      if existsb is_str col || negb (same_kind (filter (λ c, notna c = true) col))
      then inr col
      else inl AttributeError
  end.

(** ** Library routines *)

(** The routines of pandas and of Python's [float] that the program calls
    and that are taken as given. *)
Class Pandas := {
  (** the type of Python floats *)
  float : Type;
  (** [0.0] and [1.0] *)
  fzero : float;
  fone : float;
  (** [a / b] on two ints, [b] not zero *)
  fdiv : Z → Z → float;
  (** [round(x, 2)] *)
  round2 : float → float;
  (** [x <= y] on floats *)
  fle : float → float → Prop;
  (** [str.strip] and [str.lower] *)
  str_strip : string → string;
  str_lower : string → string;
  (** [pd.to_datetime(col, errors='coerce')] on a whole column *)
  to_datetime : list cell → list cell;
  (** [pd.to_numeric(x, errors='coerce')] on one cell *)
  to_numeric : cell → cell;
  (** [astype(int)] and [astype(str)] on one cell that is not missing *)
  astype_int : cell → cell;
  astype_str : cell → string;
  (** [df.sort_values(by, ascending)]: the keys with their directions *)
  sort_values : list (string * bool) → list (gmap string cell) → list (gmap string cell)
}.

(** A cell that holds a timestamp. *)
Definition is_time (c : cell) : Prop := ∃ t, c = Time t.

(** The timestamp of a row, for rows whose date was parsed. *)
Definition time_of (r : gmap string cell) : Z :=
  match cell_at "date" r with Time t => t | _ => 0 end.

Definition date_le (r1 r2 : gmap string cell) : Prop := time_of r1 ≤ time_of r2.

Class PandasLaws (P : Pandas) := {
  (** parsing a column keeps its length and yields timestamps or [NaT] *)
  to_datetime_length : ∀ l, length (to_datetime l) = length l;
  to_datetime_cells : ∀ l, Forall (λ c, c = NaN ∨ is_time c) (to_datetime l);
  (** a string is its own [str] *)
  astype_str_Str : ∀ s, astype_str (Str s) = s;
  (** sorting permutes the rows; its default algorithm is not stable, so
      nothing is known of the order among equal keys *)
  sort_values_perm : ∀ ks rs, sort_values ks rs ≡ₚ rs;
  sort_values_date : ∀ rs,
    Forall (λ r, is_time (cell_at "date" r)) rs →
    StronglySorted date_le (sort_values [("date", true)] rs);
  (** a quotient of [0 <= c <= u] rounds to a float between 0.0 and 1.0 *)
  round2_fdiv_unit : ∀ c u, 0 ≤ c ≤ u → 0 < u →
    fle fzero (round2 (fdiv c u)) ∧ fle (round2 (fdiv c u)) fone
}.

(** ** The interpreter state: frames by reference, and the messages shown *)

(** Python passes frames by reference.  [frames] holds the frame objects,
    a reference is an index into it; [st_messages] collects what
    [st.error] displays. *)
Record world := mkWorld {
  frames : list DataFrame;
  st_messages : list string
}.

Inductive result (A : Type) :=
  | Ret (a : A)
  | Raise (e : exn).
Arguments Ret {A} a.
Arguments Raise {A} e.

Definition M (A : Type) : Type := world → result A * world.

#[global] Instance M_ret : MRet M := λ A a w, (Ret a, w).

#[global] Instance M_bind : MBind M := λ A B k c w,
  match c w with
  | (Ret a, w') => k a w'
  | (Raise e, w') => (Raise e, w')
  end.

Definition raise {A} (e : exn) : M A := λ w, (Raise e, w).

(** The frame a reference points to. *)
Definition deref (p : nat) : M DataFrame := λ w,
  match frames w !! p with
  | Some d => (Ret d, w)
  | None => (Raise Dangling, w)
  end.

(** Update, in place, of the frame a reference points to. *)
Definition modify (p : nat) (f : DataFrame → DataFrame) : M () := λ w,
  match frames w !! p with
  | Some d => (Ret (), {| frames := <[p := f d]> (frames w);
                          st_messages := st_messages w |})
  | None => (Raise Dangling, w)
  end.

(** A new frame object. *)
Definition alloc (d : DataFrame) : M nat := λ w,
  (Ret (length (frames w)),
   {| frames := frames w ++ [d]; st_messages := st_messages w |}).

(** [st.error(msg)] *)
Definition st_error (msg : string) : M () := λ w,
  (Ret (), {| frames := frames w; st_messages := st_messages w ++ [msg] |}).

(** [df[c]]: a missing column is a [KeyError]. *)
Definition getitem (p : nat) (c : string) : M (list cell) :=
  d ← deref p;
  if bool_decide (c ∈ columns d) then mret (series c (rows d))
  else raise (KeyError c).

(** [df[c] = vals], in place. *)
Definition setitem (p : nat) (c : string) (vals : list cell) : M () :=
  modify p (assign c vals).

(** [df.dropna(subset=cs)]: a new frame, without the rows that miss a
    value in one of the columns [cs]. *)
Definition dropna_rows (cs : list string) (d : DataFrame) : DataFrame :=
  select (λ r, forallb (λ c, notna (cell_at c r)) cs) d.

Definition dropna (p : nat) (cs : list string) : M nat :=
  d ← deref p;
  alloc (dropna_rows cs d).

(** ** Grouping *)

(** The key of a row under [groupby(ks)]. *)
Definition key_of (ks : list string) (r : gmap string cell) : list cell :=
  (λ c, cell_at c r) <$> ks.

Definition valid_key (k : list cell) : bool := forallb notna k.

(** The group labels: the distinct keys, in sorted order; a row with a
    missing value in a key column belongs to no group. *)
Definition group_keys (ks : list string) (rs : list (gmap string cell)) : list (list cell) :=
  merge_sort key_le (unique (filter (λ k, valid_key k = true) (key_of ks <$> rs))).

(** The rows of one group, in the order of the frame. *)
Definition group_rows (ks : list string) (k : list cell)
    (rs : list (gmap string cell)) : list (gmap string cell) :=
  filter (λ r, key_of ks r = k) rs.

(** [GroupBy.last] on one column of one group: the last value that is
    not missing, and a missing value when there is none. *)
Definition last_valid (l : list cell) : cell :=
  default NaN (last (filter (λ c, notna c = true) l)).

(** [df.groupby(ks, as_index=False).last()]: one row per group; the key
    columns come first and hold the key, every other column holds the
    last value of the group that is not missing. *)
Definition last_row (ks others : list string) (rs : list (gmap string cell))
    (k : list cell) : gmap string cell :=
  let g := group_rows ks k rs in
  list_to_map (zip ks k ++ ((λ c, (c, last_valid (series c g))) <$> others)).

Definition groupby_last (ks : list string) (d : DataFrame) : DataFrame :=
  let others := filter (λ c, c ∉ ks) (columns d) in
  {| columns := ks ++ others;
     rows := last_row ks others (rows d) <$> group_keys ks (rows d) |}.

(** ** Dictionaries and the summary frame *)

Section Summary.
(** The type of floats. *)
Context {F : Type}.

(** A value of a metric row: its label, a count or a ratio. *)
Inductive value :=
  | VStr (s : string)
  | VInt (z : Z)
  | VFloat (x : F)
  | VNaN.

(** A Python dict in insertion order; its keys are ['Metric'] and the
    bot names. *)
Definition dict := list (cell * value).

(** [d[k] = v]: a key that is present keeps its place. *)
Fixpoint dict_set (k : cell) (v : value) (d : dict) : dict :=
  match d with
  | [] => [(k, v)]
  | (k', v') :: d' =>
      if bool_decide (k' = k) then (k, v) :: d' else (k', v') :: dict_set k v d'
  end.

Fixpoint dict_get (k : cell) (d : dict) : option value :=
  match d with
  | [] => None
  | (k', v') :: d' => if bool_decide (k' = k) then Some v' else dict_get k d'
  end.

(** A frame of values whose column labels are dict keys. *)
Record Table := mkTable {
  t_columns : list cell;
  t_rows : list (list value)
}.

(** [pd.DataFrame(dicts)]: the columns are the keys in order of first
    appearance, a key a dict lacks gives a missing value.  The cells keep
    the values of the dicts.  pandas stores a column that holds counts and
    ratios as float64, so that a count [VInt z] of such a column is shown
    as the float of the same value; the dtypes of the summary are not
    modelled. *)
Definition pd_DataFrame (ds : list dict) : Table :=
  let cols := unique (concat ((λ d : dict, d.*1) <$> ds)) in
  {| t_columns := cols;
     t_rows := (λ d, (λ k, default VNaN (dict_get k d)) <$> cols) <$> ds |}.

(** The summary: the index labels, the column labels and the cells. *)
Record ReportDF := mkReport {
  index : list value;
  report_columns : list cell;
  report_values : list (list value)
}.

Fixpoint position (k : cell) (l : list cell) : option nat :=
  match l with
  | [] => None
  | x :: l' => if bool_decide (x = k) then Some 0%nat else S <$> position k l'
  end.

(** [t.set_index(k)]: column [k] becomes the index and leaves the
    columns. *)
Definition set_index (k : string) (t : Table) : exn + ReportDF :=
  match position (Str k) (t_columns t) with
  | None => inl (KeyError k)
  | Some i =>
      inr {| index := (λ r, default VNaN (r !! i)) <$> t_rows t;
             report_columns := delete i (t_columns t);
             report_values := delete i <$> t_rows t |}
  end.

End Summary.
Arguments value : clear implicits.
Arguments dict : clear implicits.
Arguments Table : clear implicits.
Arguments ReportDF : clear implicits.

(** ** The stages of [calculate_report] *)

Section Program.
Context {P : Pandas}.

(** The values that line 7 assigns: every outcome trimmed and
    lower-cased. *)
Definition outcome_normalized (col : list cell) : list cell :=
  str_method str_lower <$> (str_method str_strip <$> col).

(** Line 7: [df['outcome'].str.strip().str.lower()], with its two
    accessors.  The result of [strip] is an object column when it holds a
    string and a float64 column of missing values when it holds none, which
    is what [str_accessor] makes of it. *)
Definition outcome_column (col : list cell) : exn + list cell :=
  match str_accessor col with
  | inl e => inl e
  | inr col =>
      match str_accessor (str_method str_strip <$> col) with
      | inl e => inl e
      | inr stripped => inr (str_method str_lower <$> stripped)
      end
  end.

Definition required_cols : list string :=
  ["bot"; "mobile_number"; "outcome"; "contacted"; "date"; "recording_url"].

(** Line 9: the required columns are all there. *)
Definition has_required (cols : list string) : bool :=
  forallb (λ c, bool_decide (c ∈ cols)) required_cols.

(** Line 10 *)
Definition missing_cols (cols : list string) : list string :=
  filter (λ c, c ∉ cols) required_cols.

(** Line 17: [pd.to_numeric(..., errors='coerce').fillna(0).astype(int)] *)
Definition contacted_coerced (col : list cell) : list cell :=
  (λ c, astype_int (fillna (Num 0) (to_numeric c))) <$> col.

(** Line 18 *)
Definition bot_filled (col : list cell) : list cell :=
  fillna (Str "Blank_Bot_Name") <$> col.

(** Line 21: [fillna('').astype(str).str.strip()].  After [astype(str)]
    the column is an object column of strings, or has no row: the accessor
    is granted. *)
Definition recording_url_normalized (col : list cell) : list cell :=
  (λ c, str_method str_strip (Str (astype_str (fillna (Str "") c)))) <$> col.

(** Line 24: the latest state per lead. *)
Definition latest_per_lead_of (d : DataFrame) : DataFrame :=
  groupby_last ["bot"; "mobile_number"]
    {| columns := columns d; rows := sort_values [("date", true)] (rows d) |}.

(** Line 27 *)
Definition follow_up_exclude : list cell :=
  [Str "assign to live agent"; Str "converted"; Str "lost"].

(** [Series.isin(vals)] on one cell *)
Definition isin (vals : list cell) (c : cell) : bool := existsb (py_eq c) vals.

(** The masks of lines 42-47 and 50-55, on one row. *)
Definition is_connected (r : gmap string cell) : bool :=
  negb (py_eq (cell_at "recording_url" r) (Str "")).
Definition is_not_connected (r : gmap string cell) : bool :=
  py_eq (cell_at "recording_url" r) (Str "").
Definition is_converted (r : gmap string cell) : bool :=
  py_eq (cell_at "outcome" r) (Str "converted").
Definition is_lost (r : gmap string cell) : bool :=
  py_eq (cell_at "outcome" r) (Str "lost").
Definition is_assigned (r : gmap string cell) : bool :=
  py_eq (cell_at "outcome" r) (Str "assign to live agent").
Definition is_follow_up (r : gmap string cell) : bool :=
  negb (isin follow_up_exclude (cell_at "outcome" r)).

(** [df[c] = mask], the mask computed from the rows of [df]. *)
Definition assign_flag (c : string) (p : gmap string cell → bool)
    (d : DataFrame) : DataFrame :=
  assign c ((λ r, Flag (p r)) <$> rows d) d.

(** Lines 50-55: the six flag columns, added to the latest-state frame. *)
Definition with_flags (latest : DataFrame) : DataFrame :=
  assign_flag "follow_up_flag" is_follow_up
  (assign_flag "assigned_to_agent_flag" is_assigned
  (assign_flag "lost_flag" is_lost
  (assign_flag "converted_flag" is_converted
  (assign_flag "not_connected_flag" is_not_connected
  (assign_flag "connected_flag" is_connected latest))))).

(** What lines 50-55 make of one row of the latest-state frame. *)
Definition flag_row (r : gmap string cell) : gmap string cell :=
  <["follow_up_flag" := Flag (is_follow_up r)]>
  (<["assigned_to_agent_flag" := Flag (is_assigned r)]>
  (<["lost_flag" := Flag (is_lost r)]>
  (<["converted_flag" := Flag (is_converted r)]>
  (<["not_connected_flag" := Flag (is_not_connected r)]>
  (<["connected_flag" := Flag (is_connected r)]> r))))).

Definition lead_summary_cols : list string :=
  ["bot"; "mobile_number"; "date"; "outcome";
   "connected_flag"; "not_connected_flag"; "converted_flag"; "lost_flag";
   "assigned_to_agent_flag"; "follow_up_flag"].

(** Lines 41-47 and 62-64: the named tables, in insertion order.  The six
    category tables are cut from the latest-state frame before the flag
    columns are added to it. *)
Definition sheets_of (latest : DataFrame) : list (string * DataFrame) :=
  let flagged := project lead_summary_cols (with_flags latest) in
  [ ("connected", select is_connected latest);
    ("not_connected", select is_not_connected latest);
    ("converted", select is_converted latest);
    ("lost", select is_lost latest);
    ("assigned_to_human_agent", select is_assigned latest);
    ("follow_up", select is_follow_up latest);
    ("lead_summary",
       {| columns := columns flagged;
          rows := sort_values [("bot", true); ("date", false)] (rows flagged) |}) ].

(** The ten metric rows of lines 29-38. *)
Record MetricRows := mkRows {
  unique_leads_row : dict float;
  total_attempts_row : dict float;
  avg_attempts_row : dict float;
  connected_row : dict float;
  connectivity_perc_row : dict float;
  not_connected_row : dict float;
  follow_up_row : dict float;
  assigned_agent_row : dict float;
  lost_row : dict float;
  converted_row : dict float
}.

Definition initial_rows : MetricRows :=
  {| unique_leads_row := [(Str "Metric", VStr "Unique leads")];
     total_attempts_row := [(Str "Metric", VStr "Total Attempts")];
     avg_attempts_row := [(Str "Metric", VStr "Avg Attempts")];
     connected_row := [(Str "Metric", VStr "Connected")];
     connectivity_perc_row := [(Str "Metric", VStr "Connectivity % :")];
     not_connected_row := [(Str "Metric", VStr "Not Connected")];
     follow_up_row := [(Str "Metric", VStr "Follow Up")];
     assigned_agent_row := [(Str "Metric", VStr "Assigned to human agent")];
     lost_row := [(Str "Metric", VStr "Lost")];
     converted_row := [(Str "Metric", VStr "Converted")] |}.

(** The rows of a frame whose bot is [bot_name] (lines 67 and 72). *)
Definition rows_of_bot (bot_name : cell) (rs : list (gmap string cell)) :
    list (gmap string cell) :=
  filter (λ r, py_eq (cell_at "bot" r) bot_name = true) rs.

(** [bot_latest[mask]['mobile_number'].nunique()] *)
Definition count_leads (p : gmap string cell → bool)
    (bot_latest : list (gmap string cell)) : Z :=
  nunique (series "mobile_number" (filter (λ r, p r = true) bot_latest)).

(** Lines 68-80: the figures of one bot. *)
Definition total_attempts (d : DataFrame) (bot_name : cell) : Z :=
  Z.of_nat (length (rows_of_bot bot_name (rows d))).

Definition unique_leads (d : DataFrame) (bot_name : cell) : Z :=
  nunique (series "mobile_number" (rows_of_bot bot_name (rows d))).

Definition ratio (num unique : Z) : float :=
  if 0 <? unique then round2 (fdiv num unique) else fzero.

Definition avg_attempts (d : DataFrame) (bot_name : cell) : float :=
  ratio (total_attempts d bot_name) (unique_leads d bot_name).

Definition connected_count (latest : DataFrame) (bot_name : cell) : Z :=
  count_leads is_connected (rows_of_bot bot_name (rows latest)).

Definition not_connected_count (latest : DataFrame) (bot_name : cell) : Z :=
  count_leads is_not_connected (rows_of_bot bot_name (rows latest)).

Definition connectivity_perc (d latest : DataFrame) (bot_name : cell) : float :=
  ratio (connected_count latest bot_name) (unique_leads d bot_name).

Definition follow_up_count (latest : DataFrame) (bot_name : cell) : Z :=
  count_leads is_follow_up (rows_of_bot bot_name (rows latest)).

Definition assigned_to_agent (latest : DataFrame) (bot_name : cell) : Z :=
  count_leads is_assigned (rows_of_bot bot_name (rows latest)).

Definition lost (latest : DataFrame) (bot_name : cell) : Z :=
  count_leads is_lost (rows_of_bot bot_name (rows latest)).

Definition converted (latest : DataFrame) (bot_name : cell) : Z :=
  count_leads is_converted (rows_of_bot bot_name (rows latest)).

(** Lines 66-91: one turn of the loop over [all_bots]. *)
Definition loop_body (d latest : DataFrame) (acc : MetricRows) (bot_name : cell) :
    MetricRows :=
  {| unique_leads_row :=
       dict_set bot_name (VInt (unique_leads d bot_name)) (unique_leads_row acc);
     total_attempts_row :=
       dict_set bot_name (VInt (total_attempts d bot_name)) (total_attempts_row acc);
     avg_attempts_row :=
       dict_set bot_name (VFloat (avg_attempts d bot_name)) (avg_attempts_row acc);
     connected_row :=
       dict_set bot_name (VInt (connected_count latest bot_name)) (connected_row acc);
     connectivity_perc_row :=
       dict_set bot_name (VFloat (connectivity_perc d latest bot_name))
         (connectivity_perc_row acc);
     not_connected_row :=
       dict_set bot_name (VInt (not_connected_count latest bot_name))
         (not_connected_row acc);
     follow_up_row :=
       dict_set bot_name (VInt (follow_up_count latest bot_name)) (follow_up_row acc);
     assigned_agent_row :=
       dict_set bot_name (VInt (assigned_to_agent latest bot_name))
         (assigned_agent_row acc);
     lost_row := dict_set bot_name (VInt (lost latest bot_name)) (lost_row acc);
     converted_row :=
       dict_set bot_name (VInt (converted latest bot_name)) (converted_row acc) |}.

(** Lines 93-104 *)
Definition report_data (m : MetricRows) : list (dict float) :=
  [ unique_leads_row m; total_attempts_row m; avg_attempts_row m;
    connected_row m; connectivity_perc_row m; not_connected_row m;
    follow_up_row m; assigned_agent_row m; lost_row m; converted_row m ].

(** The ten labels of [initial_rows], in the order of [report_data]. *)
Definition metric_labels : list string :=
  ["Unique leads"; "Total Attempts"; "Avg Attempts"; "Connected";
   "Connectivity % :"; "Not Connected"; "Follow Up"; "Assigned to human agent";
   "Lost"; "Converted"].

(** The figures of the bots [bots], metric by metric. *)
Definition summary_values (d latest : DataFrame) (bots : list cell) :
    list (list (value float)) :=
  [ (λ b, VInt (unique_leads d b)) <$> bots;
    (λ b, VInt (total_attempts d b)) <$> bots;
    (λ b, VFloat (avg_attempts d b)) <$> bots;
    (λ b, VInt (connected_count latest b)) <$> bots;
    (λ b, VFloat (connectivity_perc d latest b)) <$> bots;
    (λ b, VInt (not_connected_count latest b)) <$> bots;
    (λ b, VInt (follow_up_count latest b)) <$> bots;
    (λ b, VInt (assigned_to_agent latest b)) <$> bots;
    (λ b, VInt (lost latest b)) <$> bots;
    (λ b, VInt (converted latest b)) <$> bots ].

(** Lines 23-109, on the frame that line 21 leaves in [df]: what is
    returned, or the exception raised. *)
Definition summarize (d : DataFrame) :
    exn + (ReportDF float * list (string * DataFrame)) :=
  (* line 23 *)
  match py_sorted (unique (series "bot" (rows d))) with
  | inl e => inl e
  | inr all_bots =>
      (* line 24 *)
      let latest_per_lead := latest_per_lead_of d in
      (* lines 41-64 *)
      let sheets_by_category := sheets_of latest_per_lead in
      let latest_per_lead := with_flags latest_per_lead in
      (* lines 66-91 *)
      let m := foldl (loop_body d latest_per_lead) initial_rows all_bots in
      (* lines 106-109 *)
      match set_index "Metric" (pd_DataFrame (report_data m)) with
      | inl e => inl e
      | inr report_df => inr (report_df, sheets_by_category)
      end
  end.

Definition lift {A} (x : exn + A) : M A :=
  match x with inl e => raise e | inr a => mret a end.

(** [calculate_report(df)]; [df] is the reference the caller passes.  The
    value returned is the pair of line 12 or of line 109. *)
Definition calculate_report (df : nat) :
    M (option (ReportDF float) * option (list (string * DataFrame))) :=
  (* line 7 *)
  col ← getitem df "outcome";
  col ← lift (outcome_column col);
  _ ← setitem df "outcome" col;
  (* lines 8-12 *)
  d ← deref df;
  if negb (has_required (columns d)) then
    _ ← st_error ("Missing columns: " ++ String.concat ", " (missing_cols (columns d)));
    mret (None, None)
  else
  (* line 14 *)
  col ← getitem df "date";
  _ ← setitem df "date" (to_datetime col);
  (* line 15: from here on [df] names a new frame *)
  df ← dropna df ["date"];
  (* line 17 *)
  col ← getitem df "contacted";
  _ ← setitem df "contacted" (contacted_coerced col);
  (* line 18 *)
  col ← getitem df "bot";
  _ ← setitem df "bot" (bot_filled col);
  (* line 21 *)
  col ← getitem df "recording_url";
  _ ← setitem df "recording_url" (recording_url_normalized col);
  (* lines 23-109 *)
  d ← deref df;
  '(report_df, sheets_by_category) ← lift (summarize d);
  mret (Some report_df, Some sheets_by_category).

(** *** The frames the function passes through *)

(** The caller's frame after line 7, when line 7 raises nothing, and after
    line 14. *)
Definition set_outcome (d : DataFrame) : DataFrame :=
  assign "outcome" (outcome_normalized (series "outcome" (rows d))) d.

Definition set_date (d : DataFrame) : DataFrame :=
  assign "date" (to_datetime (series "date" (rows d))) d.

(** The new frame of line 15 after lines 17, 18 and 21. *)
Definition set_contacted (d : DataFrame) : DataFrame :=
  assign "contacted" (contacted_coerced (series "contacted" (rows d))) d.

Definition set_bot (d : DataFrame) : DataFrame :=
  assign "bot" (bot_filled (series "bot" (rows d))) d.

Definition set_recording_url (d : DataFrame) : DataFrame :=
  assign "recording_url" (recording_url_normalized (series "recording_url" (rows d))) d.

(** The rows that line 15 keeps, before their columns are coerced. *)
Definition dated (d : DataFrame) : DataFrame :=
  dropna_rows ["date"] (set_date (set_outcome d)).

(** The normalized dataset: the frame [df] names from line 21 on. *)
Definition normalize (d : DataFrame) : DataFrame :=
  set_recording_url (set_bot (set_contacted (dated d))).

(** What lines 17, 18 and 21 make of one row. *)
Definition coerce_row (r : gmap string cell) : gmap string cell :=
  let r1 := <["contacted" :=
                astype_int (fillna (Num 0) (to_numeric (cell_at "contacted" r)))]> r in
  let r2 := <["bot" := fillna (Str "Blank_Bot_Name") (cell_at "bot" r1)]> r1 in
  <["recording_url" :=
      str_method str_strip (Str (astype_str (fillna (Str "") (cell_at "recording_url" r2))))]> r2.

(** The leads of a frame: the distinct pairs of a bot and a mobile
    number that is not missing. *)
Definition lead_pairs (d : DataFrame) : list (cell * cell) :=
  unique (filter (λ p, notna p.2 = true)
            ((λ r, (cell_at "bot" r, cell_at "mobile_number" r)) <$> rows d)).

(** A row that has a mobile number. *)
Definition has_mobile (r : gmap string cell) : bool :=
  notna (cell_at "mobile_number" r).

(** The latest state per lead computed from the sorted attempts that have
    a mobile number. *)
Definition latest_of_numbered (d : DataFrame) : DataFrame :=
  groupby_last ["bot"; "mobile_number"]
    {| columns := columns d;
       rows := filter (λ r, has_mobile r = true)
                 (sort_values [("date", true)] (rows d)) |}.

(** All the pairs of a bot and a mobile number, a missing one included. *)
Definition all_pairs (d : DataFrame) : list (cell * cell) :=
  unique ((λ r, (cell_at "bot" r, cell_at "mobile_number" r)) <$> rows d).

End Program.

(** ** An executable instance of the library routines *)

Module RefLib.

(** Round to the nearest integer, ties to the even one; [d] positive. *)
Definition round_half_even (n d : Z) : Z :=
  let k := n / d in
  let r := n mod d in
  if 2 * r <? d then k
  else if d <? 2 * r then k + 1
  else if Z.even k then k else k + 1.

Definition qround2 (q : Q) : Q :=
  Qmake (round_half_even (100 * Qnum q) (Zpos (Qden q))) 100.

Definition qdiv (a b : Z) : Q :=
  match b with
  | Zpos p => Qmake a p
  | _ => 0%Q
  end.

Definition is_space (a : ascii) : bool :=
  let n := nat_of_ascii a in
  ((9 <=? n) && (n <=? 13) || (n =? 32))%nat.

Fixpoint lstrip (s : string) : string :=
  match s with
  | String a s' => if is_space a then lstrip s' else s
  | EmptyString => EmptyString
  end.

Fixpoint rstrip (s : string) : string :=
  match s with
  | String a s' =>
      match rstrip s' with
      | EmptyString => if is_space a then EmptyString else String a EmptyString
      | t => String a t
      end
  | EmptyString => EmptyString
  end.

Definition strip (s : string) : string := rstrip (lstrip s).

Definition lower_ascii (a : ascii) : ascii :=
  let n := nat_of_ascii a in
  if ((65 <=? n) && (n <=? 90))%nat then ascii_of_nat (n + 32) else a.

Fixpoint lower (s : string) : string :=
  match s with
  | String a s' => String (lower_ascii a) (lower s')
  | EmptyString => EmptyString
  end.

(** Decimal digits only. *)
Fixpoint digits (acc : Z) (s : string) : option Z :=
  match s with
  | EmptyString => Some acc
  | String a s' =>
      let n := nat_of_ascii a in
      if ((48 <=? n) && (n <=? 57))%nat
      then digits (10 * acc + Z.of_nat (n - 48)) s'
      else None
  end.

Definition parse_int (s : string) : option Z :=
  match s with
  | EmptyString => None
  | _ => digits 0 s
  end.

(** A date [YYYY-MM-DD] read as the number [YYYYMMDD]; a timestamp or a
    number stands for itself. *)
Definition parse_date (c : cell) : cell :=
  match c with
  | Time t => Time t
  | Num z => Time z
  | Str s =>
      match parse_int (substring 0 4 s), parse_int (substring 5 2 s),
            parse_int (substring 8 2 s) with
      | Some y, Some m, Some d =>
          if bool_decide (String.length s = 10%nat ∧ substring 4 1 s = "-"
                          ∧ substring 7 1 s = "-")
          then Time (y * 10000 + m * 100 + d) else NaN
      | _, _, _ => NaN
      end
  | _ => NaN
  end.

Definition parse_num (c : cell) : cell :=
  match c with
  | Num z => Num z
  | Flag b => Num (if b then 1 else 0)
  | Str s => match parse_int (strip s) with Some z => Num z | None => NaN end
  | _ => NaN
  end.

Definition to_int (c : cell) : cell :=
  match c with
  | Flag b => Num (if b then 1 else 0)
  | Time t => Num t
  | _ => c
  end.

Definition to_str (c : cell) : string :=
  match c with
  | Str s => s
  | Num z => pretty z
  | Time t => pretty t
  | Flag true => "True"
  | Flag false => "False"
  | NaN => "nan"
  end.

(** Rows compared on the keys [ks], each ascending or descending. *)
Fixpoint row_leb (ks : list (string * bool)) (r1 r2 : gmap string cell) : bool :=
  match ks with
  | [] => true
  | (c, asc) :: ks' =>
      let a := cell_at c r1 in
      let b := cell_at c r2 in
      if bool_decide (a = b) then row_leb ks' r1 r2
      else if asc then cell_leb a b else cell_leb b a
  end.

Definition row_le (ks : list (string * bool)) (r1 r2 : gmap string cell) : Prop :=
  row_leb ks r1 r2 = true.

#[global] Instance row_le_dec ks r1 r2 : Decision (row_le ks r1 r2).
Proof. unfold row_le. apply _. Defined.

Definition lib : Pandas := {|
  float := Q;
  fzero := 0%Q;
  fone := 1%Q;
  fdiv := qdiv;
  round2 := qround2;
  fle := Qle;
  str_strip := strip;
  str_lower := lower;
  to_datetime := fmap parse_date;
  to_numeric := parse_num;
  astype_int := to_int;
  astype_str := to_str;
  sort_values := λ ks, merge_sort (row_le ks)
|}.

End RefLib.


(** ** Sample call logs *)

Definition row (bot mobile outcome contacted date url : cell) : gmap string cell :=
  list_to_map [("bot", bot); ("mobile_number", mobile); ("outcome", outcome);
               ("contacted", contacted); ("date", date); ("recording_url", url)].

(** The two attempts of section 8 of the specification. *)
Definition scenario : DataFrame :=
  {| columns := required_cols;
     rows := [ row (Str "A") (Str "111") (Str " Converted ") (Num 1) (Str "2024-01-01") NaN;
               row (Str "A") (Str "111") (Str "lost") (Num 1) (Str "2024-01-02") (Str "http://x") ] |}.

(** A world that holds one frame, at reference 0, and a call on it. *)
Definition world_of (d : DataFrame) : world :=
  {| frames := [d]; st_messages := [] |}.

Definition run (d : DataFrame) :=
  @calculate_report RefLib.lib 0%nat (world_of d).

(** The summary a call returned, if it returned one, and a column of
    every frame there is after the call. *)
Definition returned_report {F A}
    (x : result (option (ReportDF F) * A) * world) : option (ReportDF F) :=
  match x.1 with Ret (r, _) => r | Raise _ => None end.

Definition returned_sheets {A}
    (x : result (A * option (list (string * DataFrame))) * world) :
    list (string * DataFrame) :=
  match x.1 with Ret (_, Some s) => s | _ => [] end.

Definition series_after {A} (c : string) (x : A * world) : list (list cell) :=
  (λ d, series c (rows d)) <$> frames x.2.

(** A call log that lacks the [outcome] column. *)
Definition no_outcome : DataFrame :=
  {| columns := ["bot"; "mobile_number"; "contacted"; "date"; "recording_url"];
     rows := [ list_to_map [("bot", Str "A"); ("mobile_number", Str "111");
                            ("contacted", Num 1); ("date", Str "2024-01-01");
                            ("recording_url", Str "http://x")] ] |}.

(** A call log that lacks [date] and [recording_url]. *)
Definition no_date_url : DataFrame :=
  {| columns := ["bot"; "mobile_number"; "outcome"; "contacted"];
     rows := [ list_to_map [("bot", Str "A"); ("mobile_number", Str "111");
                            ("outcome", Str " Lost "); ("contacted", Num 1)] ] |}.

(** The flagged latest state of the one lead of [scenario]. *)
Definition scenario_lead : gmap string cell :=
  default ∅ (head (rows (with_flags
    (@latest_per_lead_of RefLib.lib (@normalize RefLib.lib scenario))))).

(** The latest state of the one lead of [scenario], before the flags. *)
Definition scenario_record : gmap string cell :=
  default ∅ (head (rows (@latest_per_lead_of RefLib.lib (@normalize RefLib.lib scenario)))).

(** Two attempts of one lead at distinct timestamps; the later one has no
    outcome and no recording. *)
Definition stale_outcome : DataFrame :=
  {| columns := required_cols;
     rows := [ row (Str "A") (Str "111") (Str "Converted") (Num 1)
                   (Str "2024-01-01") (Str "http://x");
               row (Str "A") (Str "111") NaN (Num 1) (Str "2024-01-02") NaN ] |}.

(** The date, outcome and recording of every row of a frame. *)
Definition state_of (d : DataFrame) : list (cell * cell * cell) :=
  (λ r, (cell_at "date" r, cell_at "outcome" r, cell_at "recording_url" r)) <$> rows d.

(** The names of the returned tables and how many rows each has. *)
Definition sheet_sizes (sheets : list (string * DataFrame)) : list (string * nat) :=
  (λ s, (s.1, length (rows s.2))) <$> sheets.

(** One attempt of a bot that is called "Metric". *)
Definition metric_bot : DataFrame :=
  {| columns := required_cols;
     rows := [ row (Str "Metric") (Str "111") (Str "lost") (Num 1)
                   (Str "2024-01-01") (Str "http://x") ] |}.


(** One attempt whose date cannot be parsed. *)
Definition bad_dates : DataFrame :=
  {| columns := required_cols;
     rows := [ row (Str "A") (Str "111") (Str "lost") (Num 1) (Str "not-a-date") NaN ] |}.

(** One attempt of a call log whose [outcome] column is blank, and one of
    a call log whose outcomes are numbers. *)
Definition blank_outcome : DataFrame :=
  {| columns := required_cols;
     rows := [ row (Str "A") (Str "111") NaN (Num 1) (Str "2024-01-01") NaN ] |}.


(** One attempt whose bot is the empty string. *)
Definition empty_bot : DataFrame :=
  {| columns := required_cols;
     rows := [ row (Str "") (Str "111") (Str "lost") (Num 1) (Str "2024-01-01") NaN ] |}.

(** Two attempts of bot A, one of them without a mobile number. *)
Definition null_mobile : DataFrame :=
  {| columns := required_cols;
     rows := [ row (Str "A") NaN (Str "lost") (Num 1) (Str "2024-01-01") NaN;
               row (Str "A") (Str "111") (Str "lost") (Num 1) (Str "2024-01-02") NaN ] |}.


(** The rows of the table called [name] among the returned tables. *)
Definition sheet (name : string) (sheets : list (string * DataFrame)) :
    list (gmap string cell) :=
  match list_find (λ s, s.1 = name) sheets with
  | Some (_, s) => rows s.2
  | None => []
  end.


(** The values of a column in the rows whose date was parsed: [col] is the
    column, [dates] the parsed dates, row by row. *)
Definition kept_values (col dates : list cell) : list cell :=
  (filter (λ p, notna p.2 = true) (zip col dates)).*1.

(** The attempts of bot [b] among the rows [rs]: those that have a mobile
    number and those that have none. *)
Definition attempts_with_mobile (b : cell) (rs : list (gmap string cell)) :
    list (gmap string cell) :=
  filter (λ r, cell_at "bot" r = b ∧ cell_at "mobile_number" r ≠ NaN) rs.

Definition attempts_without_mobile (b : cell) (rs : list (gmap string cell)) :
    list (gmap string cell) :=
  filter (λ r, cell_at "bot" r = b ∧ cell_at "mobile_number" r = NaN) rs.

(** The row of [lead_summary] that a record of the latest-state frame
    gives: its flags added, the ten columns kept. *)
Definition summary_row (r : gmap string cell) : gmap string cell :=
  list_to_map ((λ c, (c, cell_at c (flag_row r))) <$> lead_summary_cols).

(** The lead of a row: its bot and its mobile number. *)
Definition lead_of (r : gmap string cell) : cell * cell :=
  (cell_at "bot" r, cell_at "mobile_number" r).

(** ** The style functions of [style_summary_df] *)

Section Styling.
Context {F : Type}.




End Styling.

(** ** Tactics *)

(** A label that differs from every label of an explicit list. *)
Ltac not_in_list :=
  let H := fresh in
  intros H;
  repeat (apply elem_of_cons in H as [H|H]; [discriminate H|]);
  by apply elem_of_nil in H.

(** * Properties *)

(** ** Lists *)

Section Lists.
Context `{EqDecision A}.
Implicit Types l : list A.

Lemma filter_all (Q : A → Prop) `{∀ x, Decision (Q x)} l :
  Forall Q l → filter Q l = l.
Proof.
  induction 1 as [|x l Hx _ IH]; [done|].
  by rewrite filter_cons_True, IH.
Qed.

Lemma elem_of_unique l x : x ∈ unique l ↔ x ∈ l.
Proof.
  induction l as [|y l IH]; simpl; [done|].
  rewrite !elem_of_cons, list_elem_of_filter, IH.
  destruct (decide (x = y)); tauto.
Qed.

Lemma NoDup_unique l : NoDup (unique l).
Proof.
  induction l as [|y l IH]; simpl; [constructor|].
  apply NoDup_cons. split.
  - rewrite list_elem_of_filter. tauto.
  - by apply NoDup_filter.
Qed.

Lemma unique_NoDup l : NoDup l → unique l = l.
Proof.
  induction 1 as [|y l Hy _ IH]; simpl; [done|].
  rewrite IH. f_equal. apply filter_all.
  apply Forall_forall. intros z Hz ->. done.
Qed.

Lemma zip_with_fmap_r {B C} (f : A → B → C) (g : A → B) l :
  zip_with f l (g <$> l) = (λ x, f x (g x)) <$> l.
Proof. induction l as [|x l IH]; csimpl; [done|]. by f_equal. Qed.

End Lists.

Lemma filter_none {A} (Q : A → Prop) `{∀ x, Decision (Q x)} (l : list A) :
  Forall (λ x, ¬ Q x) l → filter Q l = [].
Proof.
  induction 1 as [|x l Hx _ IH]; [done|]. by rewrite filter_cons_False.
Qed.

(** ** Running the monad *)

Lemma run_bind {A B} (c : M A) (k : A → M B) w :
  (c ≫= k) w =
  match c w with
  | (Ret a, w') => k a w'
  | (Raise e, w') => (Raise e, w')
  end.
Proof. reflexivity. Qed.

Lemma run_deref p w d :
  frames w !! p = Some d → deref p w = (Ret d, w).
Proof. intros H. unfold deref. by rewrite H. Qed.

Lemma run_getitem p c w d :
  frames w !! p = Some d → c ∈ columns d →
  getitem p c w = (Ret (series c (rows d)), w).
Proof.
  intros H Hc. unfold getitem. rewrite run_bind, (run_deref _ _ _ H).
  by rewrite bool_decide_eq_true_2.
Qed.

Lemma run_getitem_missing p c w d :
  frames w !! p = Some d → c ∉ columns d →
  getitem p c w = (Raise (KeyError c), w).
Proof.
  intros H Hc. unfold getitem. rewrite run_bind, (run_deref _ _ _ H).
  by rewrite bool_decide_eq_false_2.
Qed.

Lemma run_setitem p c vals w d :
  frames w !! p = Some d →
  setitem p c vals w =
  (Ret (), {| frames := <[p := assign c vals d]> (frames w);
              st_messages := st_messages w |}).
Proof. intros H. unfold setitem, modify. by rewrite H. Qed.

Lemma run_lift_inr {A} (a : A) w : lift (inr a) w = (Ret a, w).
Proof. reflexivity. Qed.

Lemma run_lift_inl {A} e w : lift (inl e : exn + A) w = (Raise e, w).
Proof. reflexivity. Qed.

(** ** The [.str] accessor *)

Lemma is_str_str_method f c : is_str (str_method f c) = is_str c.
Proof. by destruct c. Qed.

Lemma existsb_is_str_fmap f col :
  existsb is_str (str_method f <$> col) = existsb is_str col.
Proof.
  induction col as [|c col IH]; [done|].
  cbn [fmap list_fmap existsb]. fold (fmap (M:=list) (str_method f) col).
  by rewrite is_str_str_method, IH.
Qed.

Lemma existsb_is_str col : existsb is_str col = true ↔ ∃ s, Str s ∈ col.
Proof.
  rewrite existsb_exists. split.
  - intros ([|s| | |] & Hc%list_elem_of_In & Hs); try done. by exists s.
  - intros (s & Hs%list_elem_of_In). by exists (Str s).
Qed.

Lemma str_accessor_str col : existsb is_str col = true → str_accessor col = inr col.
Proof. destruct col; [done|]. unfold str_accessor. by intros ->. Qed.

Lemma str_accessor_cases col :
  str_accessor col = inr col ∨ str_accessor col = inl AttributeError.
Proof.
  destruct col; [by left|]. unfold str_accessor.
  destruct (_ || _); [by left|by right].
Qed.

(** The result of a string method on a column without a string holds
    missing values only, and has no accessor when it has a row. *)
Lemma str_accessor_no_str f col :
  col ≠ [] → existsb is_str col = false →
  str_accessor (str_method f <$> col) = inl AttributeError.
Proof.
  intros Hne Hs.
  assert (Hn : filter (λ c, notna c = true) (str_method f <$> col) = []).
  { apply filter_none, Forall_forall. intros c (c0 & -> & Hc0)%list_elem_of_fmap.
    assert (is_str c0 = false) as Hc.
    { destruct (is_str c0) eqn:E; [|done]. rewrite <- Hs. symmetry.
      apply existsb_exists. exists c0. split; [by apply list_elem_of_In|done]. }
    by destruct c0. }
  destruct col as [|c col]; [done|].
  unfold str_accessor. cbn [fmap list_fmap].
  fold (fmap (M:=list) (str_method f) col).
  change (str_method f c :: (str_method f <$> col)) with (str_method f <$> (c :: col)).
  by rewrite existsb_is_str_fmap, Hs, Hn.
Qed.

(** Line 7 raises nothing for a column without rows and for a column that
    holds a string, and raises [AttributeError] for every other column. *)
Lemma outcome_column_eq `{P : Pandas} col :
  outcome_column col =
  if bool_decide (col = []) || existsb is_str col
  then inr (outcome_normalized col) else inl AttributeError.
Proof.
  destruct (decide (col = [])) as [->|Hne]; [done|].
  rewrite (bool_decide_eq_false_2 _ Hne). cbn [orb]. unfold outcome_column.
  destruct (existsb is_str col) eqn:Hs.
  - rewrite (str_accessor_str _ Hs), str_accessor_str; [done|].
    by rewrite existsb_is_str_fmap.
  - destruct (str_accessor_cases col) as [->| ->]; [|done].
    by rewrite str_accessor_no_str.
Qed.

Lemma holds_string_true (col : list cell) :
  bool_decide (col = []) || existsb is_str col = true
  ↔ col = [] ∨ ∃ s, Str s ∈ col.
Proof. by rewrite orb_true_iff, bool_decide_eq_true, existsb_is_str. Qed.

(** The condition on a frame under which line 7 raises nothing. *)
Lemma outcome_strings (d : DataFrame) :
  rows d = [] ∨ (∃ s, Str s ∈ series "outcome" (rows d)) →
  bool_decide (series "outcome" (rows d) = [])
    || existsb is_str (series "outcome" (rows d)) = true.
Proof.
  intros [H|H]; apply holds_string_true; [left|by right].
  unfold series. by rewrite H.
Qed.

Lemma outcome_no_string (d : DataFrame) :
  rows d ≠ [] → (∀ s, Str s ∉ series "outcome" (rows d)) →
  bool_decide (series "outcome" (rows d) = [])
    || existsb is_str (series "outcome" (rows d)) = false.
Proof.
  intros Hne Hs. apply not_true_is_false. rewrite holds_string_true.
  intros [H|(s & H)]; [|by apply (Hs s)].
  apply Hne. by apply fmap_nil_inv in H.
Qed.

(** ** Column assignment *)

Lemma assign_columns c vals d :
  c ∈ columns d → columns (assign c vals d) = columns d.
Proof. intros H. simpl. by rewrite bool_decide_eq_true_2. Qed.

Lemma assign_rows_fmap c (f : gmap string cell → cell) d :
  rows (assign c (f <$> rows d) d) = (λ r, <[c := f r]> r) <$> rows d.
Proof. simpl. apply zip_with_fmap_r. Qed.


Lemma cell_at_insert c v r : cell_at c (<[c := v]> r) = v.
Proof. unfold cell_at. by rewrite lookup_insert_eq. Qed.

Lemma cell_at_insert_ne c c' v r : c ≠ c' → cell_at c' (<[c := v]> r) = cell_at c' r.
Proof. intros H. unfold cell_at. by rewrite lookup_insert_ne. Qed.

Section Run.
Context {P : Pandas}.

Lemma set_outcome_rows d :
  rows (set_outcome d) =
  (λ r, <["outcome" := str_method str_lower (str_method str_strip (cell_at "outcome" r))]> r)
    <$> rows d.
Proof.
  unfold set_outcome, outcome_normalized, series.
  rewrite <- !list_fmap_compose. apply (assign_rows_fmap "outcome").
Qed.

Lemma set_contacted_rows d :
  rows (set_contacted d) =
  (λ r, <["contacted" := astype_int (fillna (Num 0) (to_numeric (cell_at "contacted" r)))]> r)
    <$> rows d.
Proof.
  unfold set_contacted, contacted_coerced, series.
  rewrite <- !list_fmap_compose. apply (assign_rows_fmap "contacted").
Qed.

Lemma set_bot_rows d :
  rows (set_bot d) =
  (λ r, <["bot" := fillna (Str "Blank_Bot_Name") (cell_at "bot" r)]> r) <$> rows d.
Proof.
  unfold set_bot, bot_filled, series.
  rewrite <- !list_fmap_compose. apply (assign_rows_fmap "bot").
Qed.

Lemma set_recording_url_rows d :
  rows (set_recording_url d) =
  (λ r, <["recording_url" :=
            str_method str_strip (Str (astype_str (fillna (Str "") (cell_at "recording_url" r))))]> r)
    <$> rows d.
Proof.
  unfold set_recording_url, recording_url_normalized, series.
  rewrite <- !list_fmap_compose. apply (assign_rows_fmap "recording_url").
Qed.

Lemma has_required_elem cols c :
  has_required cols = true → c ∈ required_cols → c ∈ cols.
Proof.
  unfold has_required. rewrite forallb_forall. intros H Hc.
  apply list_elem_of_In in Hc. apply H in Hc. by apply bool_decide_eq_true in Hc.
Qed.

(** What a call does, step by step: the exceptions of line 7, the failed
    check of lines 9-12, or the whole computation. *)
Lemma calculate_report_run df w d :
  frames w !! df = Some d →
  calculate_report df w =
  if bool_decide ("outcome" ∈ columns d) then
    if negb (bool_decide (series "outcome" (rows d) = [])
             || existsb is_str (series "outcome" (rows d)))
    then (Raise AttributeError, w)
    else if has_required (columns d) then
      (match summarize (normalize d) with
       | inl e => Raise e
       | inr (report_df, sheets) => Ret (Some report_df, Some sheets)
       end,
       {| frames := <[df := set_date (set_outcome d)]> (frames w) ++ [normalize d];
          st_messages := st_messages w |})
    else
      (Ret (None, None),
       {| frames := <[df := set_outcome d]> (frames w);
          st_messages := st_messages w ++
            ["Missing columns: " ++ String.concat ", " (missing_cols (columns d))] |})
  else (Raise (KeyError "outcome"), w).
Proof.
  intros Hd. unfold calculate_report.
  assert (Hlt : (df < length (frames w))%nat) by (by eapply lookup_lt_Some).
  case_bool_decide as Hout.
  2:{ rewrite run_bind, (run_getitem_missing _ _ _ _ Hd Hout). done. }
  rewrite run_bind, (run_getitem _ _ _ _ Hd Hout).
  rewrite run_bind, outcome_column_eq.
  destruct (bool_decide (series "outcome" (rows d) = [])
            || existsb is_str (series "outcome" (rows d))); unfold negb; cbv iota.
  2:{ by rewrite run_lift_inl. }
  rewrite run_lift_inr.
  rewrite run_bind, (run_setitem _ _ _ _ _ Hd).
  fold (set_outcome d).
  set (w1 := {| frames := <[df:=set_outcome d]> (frames w) |}).
  assert (H1 : frames w1 !! df = Some (set_outcome d))
    by (by apply list_lookup_insert_eq).
  rewrite run_bind, (run_deref _ _ _ H1).
  assert (Hcols : columns (set_outcome d) = columns d)
    by (by apply assign_columns).
  rewrite Hcols.
  destruct (has_required (columns d)) eqn:Hreq; unfold negb; cbv iota.
  2:{ rewrite run_bind. reflexivity. }
  assert (Hin : ∀ c, c ∈ required_cols → c ∈ columns d)
    by (intros c; by apply has_required_elem).
  rewrite run_bind, (run_getitem _ _ _ _ H1) by (rewrite Hcols; apply Hin; set_solver).
  rewrite run_bind, (run_setitem _ _ _ _ _ H1).
  fold (set_date (set_outcome d)).
  set (w2 := {| frames := <[df:=set_date (set_outcome d)]> (frames w1) |}).
  assert (H2 : frames w2 !! df = Some (set_date (set_outcome d))).
  { apply list_lookup_insert_eq. subst w1. simpl. by rewrite length_insert. }
  rewrite run_bind. unfold dropna at 1. rewrite run_bind, (run_deref _ _ _ H2).
  unfold alloc at 1. fold (dated d).
  set (n := length (frames w2)).
  set (w3 := {| frames := frames w2 ++ [dated d] |}).
  assert (Hc3 : columns (dated d) = columns d).
  { change (columns (dated d)) with (columns (set_date (set_outcome d))).
    unfold set_date at 1. rewrite assign_columns; rewrite Hcols; [done|].
    apply Hin. set_solver. }
  assert (H3 : frames w3 !! n = Some (dated d))
    by (subst w3 n; simpl; by rewrite lookup_app_r, Nat.sub_diag by lia).
  rewrite run_bind, (run_getitem _ _ _ _ H3) by (rewrite Hc3; apply Hin; set_solver).
  rewrite run_bind, (run_setitem _ _ _ _ _ H3).
  fold (set_contacted (dated d)).
  assert (Hc4 : columns (set_contacted (dated d)) = columns d).
  { unfold set_contacted. rewrite assign_columns; rewrite Hc3; [done|].
    apply Hin. set_solver. }
  set (w4 := {| frames := <[n:=set_contacted (dated d)]> (frames w3) |}).
  assert (Hn3 : (n < length (frames w3))%nat)
    by (subst w3 n; simpl; rewrite length_app; simpl; lia).
  assert (H4 : frames w4 !! n = Some (set_contacted (dated d)))
    by (by apply list_lookup_insert_eq).
  rewrite run_bind, (run_getitem _ _ _ _ H4) by (rewrite Hc4; apply Hin; set_solver).
  rewrite run_bind, (run_setitem _ _ _ _ _ H4).
  fold (set_bot (set_contacted (dated d))).
  assert (Hc5 : columns (set_bot (set_contacted (dated d))) = columns d).
  { unfold set_bot. rewrite assign_columns; rewrite Hc4; [done|].
    apply Hin. set_solver. }
  set (w5 := {| frames := <[n:=set_bot (set_contacted (dated d))]> (frames w4) |}).
  assert (Hn4 : (n < length (frames w4))%nat)
    by (subst w4; simpl; by rewrite length_insert).
  assert (H5 : frames w5 !! n = Some (set_bot (set_contacted (dated d))))
    by (by apply list_lookup_insert_eq).
  rewrite run_bind, (run_getitem _ _ _ _ H5) by (rewrite Hc5; apply Hin; set_solver).
  rewrite run_bind, (run_setitem _ _ _ _ _ H5).
  fold (set_recording_url (set_bot (set_contacted (dated d)))).
  fold (normalize d).
  set (w6 := {| frames := <[n:=normalize d]> (frames w5) |}).
  assert (Hn5 : (n < length (frames w5))%nat)
    by (subst w5; simpl; by rewrite length_insert).
  assert (H6 : frames w6 !! n = Some (normalize d))
    by (by apply list_lookup_insert_eq).
  rewrite run_bind, (run_deref _ _ _ H6).
  assert (Hw6 : w6 = {| frames := <[df := set_date (set_outcome d)]> (frames w) ++ [normalize d];
                        st_messages := st_messages w |}).
  { subst w6 w5 w4 w3 w2 w1 n. simpl. f_equal.
    rewrite !list_insert_insert_eq.
    rewrite insert_app_r_alt by done. rewrite Nat.sub_diag. done. }
  rewrite run_bind. unfold lift.
  destruct (summarize (normalize d)) as [e|[r s]]; simpl; by rewrite Hw6.
Qed.

End Run.

(** ** The reference routines obey the laws *)

Module RefLaws.
Import RefLib.

Lemma parse_date_cells c : parse_date c = NaN ∨ is_time (parse_date c).
Proof.
  destruct c as [|s|z|t|b]; simpl; eauto; try (right; by eexists).
  repeat case_match; eauto; right; by eexists.
Qed.

Lemma cell_leb_total a b : cell_leb a b = true ∨ cell_leb b a = true.
Proof.
  destruct a, b; simpl; try (by left); try (by right).
  - apply String.leb_total.
  - destruct (Z.leb_spec z z0); [by left|right]. apply Z.leb_le. lia.
  - destruct (Z.leb_spec t t0); [by left|right]. apply Z.leb_le. lia.
  - destruct b, b0; simpl; auto.
Qed.

#[local] Instance row_le_total ks : Total (row_le ks).
Proof.
  intros r1 r2. unfold row_le.
  induction ks as [|[c asc] ks IH]; simpl; [by left|].
  destruct (decide (cell_at c r1 = cell_at c r2)) as [E|N].
  - rewrite E, !bool_decide_eq_true_2 by done. apply IH.
  - rewrite !bool_decide_eq_false_2 by congruence.
    destruct asc; [|apply or_comm]; apply cell_leb_total.
Qed.

Lemma Sorted_weaken {A} (R R' : relation A) l :
  (∀ x y, x ∈ l → y ∈ l → R x y → R' x y) → Sorted R l → Sorted R' l.
Proof.
  intros H HS. induction HS as [|x l HS IH Hd]; constructor.
  - apply IH. intros ????. apply H; by right.
  - destruct Hd as [|y l' Hxy]; constructor.
    apply H; [by left|right; by left|done].
Qed.

Lemma row_le_date r1 r2 :
  is_time (cell_at "date" r1) → is_time (cell_at "date" r2) →
  row_le [("date", true)] r1 r2 → date_le r1 r2.
Proof.
  intros [a Ha] [b Hb]. unfold row_le, date_le, time_of. simpl.
  rewrite Ha, Hb. case_bool_decide as E.
  - intros _. injection E as ->. lia.
  - simpl. apply Z.leb_le.
Qed.

#[local] Instance date_le_trans : Transitive date_le.
Proof. unfold date_le. intros ???. lia. Qed.

Lemma round_half_even_unit n d :
  0 < d → 0 ≤ n ≤ 100 * d → 0 ≤ round_half_even n d ≤ 100.
Proof.
  intros Hd Hn. unfold round_half_even.
  pose proof (Z.div_mod n d ltac:(lia)) as E.
  pose proof (Z.mod_pos_bound n d Hd) as Hr.
  assert (0 ≤ n / d) by (apply Z.div_pos; lia).
  assert (n / d ≤ 100) by (apply Z.div_le_upper_bound; lia).
  destruct (2 * (n mod d) <? d) eqn:E1; [lia|].
  apply Z.ltb_ge in E1.
  assert (n / d ≠ 100) by nia.
  repeat case_match; lia.
Qed.

Lemma laws : PandasLaws lib.
Proof.
  split; simpl.
  - intros l. apply length_fmap.
  - intros l. apply Forall_fmap, Forall_forall. intros c _. apply parse_date_cells.
  - done.
  - intros ks rs. apply merge_sort_Permutation.
  - intros rs Hrs. apply Sorted_StronglySorted; [apply _|].
    eapply Sorted_weaken; [|apply (Sorted_merge_sort (row_le [("date", true)]))].
    intros x y Hx Hy. rewrite merge_sort_Permutation in Hx, Hy.
    rewrite Forall_forall in Hrs. apply row_le_date; auto.
  - intros c u Hc Hu. destruct u as [|p|p]; try lia. unfold qdiv, qround2. simpl Qnum. simpl Qden.
    pose proof (round_half_even_unit (100 * c) (Z.pos p) ltac:(lia) ltac:(lia)).
    unfold Qle. simpl. lia.
Qed.

End RefLaws.

(** ** Schema check and the caller's frame *)



Lemma series_zip_insert_ne c c' (rs : list (gmap string cell)) vals :
  c ≠ c' → length vals = length rs →
  series c' (zip_with (λ r v, <[c := v]> r) rs vals) = series c' rs.
Proof.
  intros Hne. revert vals.
  induction rs as [|r rs IH]; intros [|v vals] Hl; try done.
  csimpl. rewrite cell_at_insert_ne by done. f_equal. apply IH. simpl in Hl. lia.
Qed.

Lemma elem_of_missing_cols cols c :
  c ∈ missing_cols cols ↔ c ∈ required_cols ∧ c ∉ cols.
Proof. unfold missing_cols. rewrite list_elem_of_filter. tauto. Qed.

Section Caller.
Context {P : Pandas}.

Lemma series_length c rs : length (series c rs) = length rs.
Proof. apply length_fmap. Qed.

Lemma outcome_normalized_length col :
  length (outcome_normalized col) = length col.
Proof. unfold outcome_normalized. by rewrite !length_fmap. Qed.

(** When [outcome] is there, with a string among its values or without
    rows, and another required column is not, the call shows one message
    that lists the missing columns and returns [(None, None)]; the
    [outcome] column of the caller's frame has been rewritten by then. *)
Lemma missing_columns_reported df w d :
  frames w !! df = Some d → "outcome" ∈ columns d →
  rows d = [] ∨ (∃ s, Str s ∈ series "outcome" (rows d)) →
  has_required (columns d) = false →
  calculate_report df w =
  (Ret (None, None),
   {| frames := <[df := set_outcome d]> (frames w);
      st_messages := st_messages w ++
        ["Missing columns: " ++ String.concat ", " (missing_cols (columns d))] |}).
Proof.
  intros Hd Ho Hs Hr.
  rewrite (calculate_report_run _ _ _ Hd), Hr, (outcome_strings _ Hs).
  by rewrite bool_decide_eq_true_2.
Qed.

(** When [outcome] is there, has rows and holds no string, line 7 raises
    [AttributeError]: nothing is shown and no frame is changed or made,
    whatever the other columns are. *)
Lemma outcome_without_strings df w d :
  frames w !! df = Some d → "outcome" ∈ columns d →
  rows d ≠ [] → (∀ s, Str s ∉ series "outcome" (rows d)) →
  calculate_report df w = (Raise AttributeError, w).
Proof.
  intros Hd Ho Hne Hs.
  rewrite (calculate_report_run _ _ _ Hd), (outcome_no_string _ Hne Hs).
  by rewrite bool_decide_eq_true_2.
Qed.

(** A call log with a blank [outcome] column, as read from a CSV file:
    the column is a float column of missing values, and line 7 raises. *)
Lemma blank_outcome_raises :
  calculate_report 0%nat (world_of blank_outcome)
  = (Raise AttributeError, world_of blank_outcome).
Proof.
  apply (outcome_without_strings _ _ blank_outcome); [done| |done|].
  - unfold blank_outcome, required_cols. cbn [columns].
    do 2 apply list_elem_of_further. apply list_elem_of_here.
  - intros s Hs.
    assert (E : existsb is_str (series "outcome" (rows blank_outcome)) = true)
      by (apply existsb_is_str; by exists s).
    vm_compute in E. discriminate.
Qed.

(** C1: a data set without the [outcome] column does not reach the
    column check: line 7 reads [df['outcome']] first and raises
    [KeyError], no "Missing columns" message is shown and the world is
    left as it was. *)
Theorem C1_missing_outcome_raises_KeyError :
  calculate_report 0%nat (world_of no_outcome)
  = (Raise (KeyError "outcome"), world_of no_outcome).
Proof.
  rewrite (calculate_report_run _ _ no_outcome) by done.
  rewrite bool_decide_eq_false_2; [done|].
  unfold no_outcome. simpl. not_in_list.
Qed.

End Caller.

Section CallerFrame.
Context {P : Pandas} {L : PandasLaws P}.




Lemma set_outcome_series_ne c d :
  c ≠ "outcome" → series c (rows (set_outcome d)) = series c (rows d).
Proof.
  intros Hc. apply series_zip_insert_ne; [done|].
  by rewrite outcome_normalized_length, series_length.
Qed.




End CallerFrame.



(** ** Normalization *)

Lemma notna_true c : notna c = true ↔ c ≠ NaN.
Proof. destruct c; simpl; split; (done || congruence). Qed.

Lemma py_eq_true a b : py_eq a b = true ↔ a = b ∧ a ≠ NaN.
Proof.
  destruct a, b; simpl; rewrite ?bool_decide_eq_true;
    split; try done; try (intros [? ?]; done); try (intros ?; split; done).
Qed.

Lemma fillna_notna v c : v ≠ NaN → fillna v c ≠ NaN.
Proof. by destruct c. Qed.

Lemma filter_zip_insert_length c (rs : list (gmap string cell)) vals :
  length vals = length rs →
  length (filter (λ r, notna (cell_at c r) && true = true)
            (zip_with (λ r v, <[c := v]> r) rs vals))
  = length (filter (λ v, notna v = true) vals).
Proof.
  revert vals. induction rs as [|r rs IH]; intros [|v vals] Hl; try done.
  simpl in Hl. simpl zip_with. rewrite !filter_cons, cell_at_insert.
  rewrite andb_true_r.
  destruct (decide (notna v = true)); simpl; rewrite IH by lia; done.
Qed.

Section Normalize.
Context {P : Pandas}.

Lemma normalize_rows d : rows (normalize d) = coerce_row <$> rows (dated d).
Proof.
  unfold normalize.
  rewrite set_recording_url_rows, set_bot_rows, set_contacted_rows.
  rewrite <- !list_fmap_compose. done.
Qed.

Lemma coerce_row_bot r :
  cell_at "bot" (coerce_row r) = fillna (Str "Blank_Bot_Name") (cell_at "bot" r).
Proof.
  unfold coerce_row.
  rewrite cell_at_insert_ne, cell_at_insert, cell_at_insert_ne; done.
Qed.

Lemma coerce_row_recording_url r :
  ∃ s, cell_at "recording_url" (coerce_row r) = Str s.
Proof. unfold coerce_row. rewrite cell_at_insert. simpl. eauto. Qed.

Lemma coerce_row_other c r :
  c ≠ "contacted" → c ≠ "bot" → c ≠ "recording_url" →
  cell_at c (coerce_row r) = cell_at c r.
Proof.
  intros. unfold coerce_row. by rewrite !cell_at_insert_ne.
Qed.

Lemma normalize_length d : length (rows (normalize d)) = length (rows (dated d)).
Proof. by rewrite normalize_rows, length_fmap. Qed.

Lemma normalize_bot d :
  series "bot" (rows (normalize d))
  = fillna (Str "Blank_Bot_Name") <$> series "bot" (rows (dated d)).
Proof.
  unfold series. rewrite normalize_rows, <- !list_fmap_compose.
  apply list_fmap_ext. intros _ r _. apply coerce_row_bot.
Qed.

Lemma normalize_bot_notna d r :
  r ∈ rows (normalize d) → cell_at "bot" r ≠ NaN.
Proof.
  rewrite normalize_rows, list_elem_of_fmap. intros (r0 & -> & _).
  rewrite coerce_row_bot. by apply fillna_notna.
Qed.

Lemma normalize_recording_url d r :
  r ∈ rows (normalize d) → ∃ s, cell_at "recording_url" r = Str s.
Proof.
  rewrite normalize_rows, list_elem_of_fmap. intros (r0 & -> & _).
  apply coerce_row_recording_url.
Qed.

(** C3, amended: normalization replaces a bot that is missing (null) by
    "Blank_Bot_Name" and leaves every other bot as it is, the empty string
    included; no row is lost on the way, so the rows with a missing bot
    are counted under that label, which is one of the bots of the
    normalized data set. *)
Theorem C3_missing_bot_gets_sentinel d :
  series "bot" (rows (normalize d))
  = (λ c, if isna c then Str "Blank_Bot_Name" else c) <$> series "bot" (rows (dated d))
  ∧ length (rows (normalize d)) = length (rows (dated d))
  ∧ (NaN ∈ series "bot" (rows (dated d)) →
     Str "Blank_Bot_Name" ∈ unique (series "bot" (rows (normalize d)))
     ∧ 0 < total_attempts (normalize d) (Str "Blank_Bot_Name")).
Proof.
  split_and!.
  - apply normalize_bot.
  - apply normalize_length.
  - intros Hin.
    assert (Hs : Str "Blank_Bot_Name" ∈ series "bot" (rows (normalize d))).
    { rewrite normalize_bot. apply list_elem_of_fmap. by exists NaN. }
    split; [by apply elem_of_unique|].
    unfold total_attempts, rows_of_bot.
    unfold series in Hs. apply list_elem_of_fmap in Hs as (r & Hr & Hin').
    assert (Hf : r ∈ filter (λ r, py_eq (cell_at "bot" r) (Str "Blank_Bot_Name") = true)
                   (rows (normalize d))).
    { apply list_elem_of_filter. split; [|done]. by rewrite <- Hr. }
    destruct (filter _ (rows (normalize d))); [by apply elem_of_nil in Hf|].
    simpl. lia.
Qed.

End Normalize.

(** C3, as stated, fails for a bot that is empty rather than missing: the
    empty string is kept, and it is the label of the bot's column. *)
Lemma C3_counterexample :
  series "bot" (rows empty_bot) = [Str ""]
  ∧ series_after "bot" (run empty_bot) = [[Str ""]; [Str ""]]
  ∧ report_columns <$> returned_report (run empty_bot) = Some [Str ""].
Proof. split_and!; vm_compute; reflexivity. Qed.

(** ** Grouping *)

Lemma lookup_list_to_map_fun (f : string → cell) (l : list string) c :
  (list_to_map ((λ c, (c, f c)) <$> l) : gmap string cell) !! c
  = if decide (c ∈ l) then Some (f c) else None.
Proof.
  induction l as [|x l IH].
  - rewrite decide_False by apply not_elem_of_nil. apply lookup_empty.
  - rewrite fmap_cons, list_to_map_cons. simpl fst. simpl snd.
    destruct (decide (x = c)) as [->|Hne].
    + rewrite lookup_insert_eq, decide_True; [done|apply list_elem_of_here].
    + rewrite lookup_insert_ne, IH by done.
      destruct (decide (c ∈ l)) as [Hin|Hin].
      * rewrite decide_True; [done|by apply list_elem_of_further].
      * rewrite decide_False; [done|].
        rewrite elem_of_cons. intros [?|?]; congruence.
Qed.

Lemma elem_of_group_keys ks rs k :
  k ∈ group_keys ks rs ↔ valid_key k = true ∧ ∃ r, r ∈ rs ∧ key_of ks r = k.
Proof.
  unfold group_keys.
  rewrite merge_sort_Permutation, elem_of_unique, list_elem_of_filter, list_elem_of_fmap.
  split.
  - intros [Hv (r & -> & Hr)]. eauto.
  - intros [Hv (r & Hr & <-)]. eauto.
Qed.

Lemma NoDup_group_keys ks rs : NoDup (group_keys ks rs).
Proof. unfold group_keys. rewrite merge_sort_Permutation. apply NoDup_unique. Qed.

Lemma group_keys_perm ks rs rs' :
  rs ≡ₚ rs' → group_keys ks rs ≡ₚ group_keys ks rs'.
Proof.
  intros Hp. apply NoDup_Permutation; try apply NoDup_group_keys.
  intros k. rewrite !elem_of_group_keys. by setoid_rewrite Hp.
Qed.

Lemma valid_key_lead b m : valid_key [b; m] = true ↔ b ≠ NaN ∧ m ≠ NaN.
Proof.
  unfold valid_key. simpl. rewrite andb_true_r, andb_true_iff, !notna_true. done.
Qed.

Lemma last_row_bot others rs b m :
  cell_at "bot" (last_row ["bot"; "mobile_number"] others rs [b; m]) = b.
Proof.
  unfold last_row, cell_at.
  change (zip ["bot"; "mobile_number"] [b; m]) with [("bot", b); ("mobile_number", m)].
  rewrite <- !app_comm_cons, !list_to_map_cons. by rewrite lookup_insert_eq.
Qed.

Lemma last_row_mobile others rs b m :
  cell_at "mobile_number" (last_row ["bot"; "mobile_number"] others rs [b; m]) = m.
Proof.
  unfold last_row, cell_at.
  change (zip ["bot"; "mobile_number"] [b; m]) with [("bot", b); ("mobile_number", m)].
  rewrite <- !app_comm_cons, !list_to_map_cons.
  rewrite lookup_insert_ne by done. by rewrite lookup_insert_eq.
Qed.

Lemma last_row_other others rs b m c :
  c ≠ "bot" → c ≠ "mobile_number" →
  cell_at c (last_row ["bot"; "mobile_number"] others rs [b; m])
  = if decide (c ∈ others)
    then last_valid (series c (group_rows ["bot"; "mobile_number"] [b; m] rs))
    else NaN.
Proof.
  intros H1 H2. unfold last_row, cell_at.
  change (zip ["bot"; "mobile_number"] [b; m]) with [("bot", b); ("mobile_number", m)].
  rewrite <- !app_comm_cons, !list_to_map_cons. simpl app.
  rewrite !lookup_insert_ne by done.
  rewrite (lookup_list_to_map_fun
             (λ c, last_valid (series c (group_rows ["bot"; "mobile_number"] [b; m] rs)))).
  by destruct (decide (c ∈ others)).
Qed.

(** A key of the lead grouping is a bot and a mobile number. *)
Lemma group_keys_lead rs k :
  k ∈ group_keys ["bot"; "mobile_number"] rs →
  ∃ b m, k = [b; m] ∧ b ≠ NaN ∧ m ≠ NaN ∧
    ∃ r, r ∈ rs ∧ cell_at "bot" r = b ∧ cell_at "mobile_number" r = m.
Proof.
  rewrite elem_of_group_keys. intros [Hv (r & Hr & <-)].
  exists (cell_at "bot" r), (cell_at "mobile_number" r).
  apply valid_key_lead in Hv as [??]. eauto 10.
Qed.

Lemma last_valid_Str l :
  l ≠ [] → Forall (λ c, ∃ s, c = Str s) l → ∃ s, last_valid l = Str s.
Proof.
  intros Hne Hall. unfold last_valid.
  rewrite filter_all.
  - destruct (last l) as [x|] eqn:E.
    + apply last_Some_elem_of in E. rewrite Forall_forall in Hall. by apply Hall.
    + by apply last_None in E.
  - eapply Forall_impl; [done|]. by intros c [s ->].
Qed.

(** The value [GroupBy.last] gives is that of the last row of the group
    when that row has one. *)
Lemma last_valid_last l x :
  last l = Some x → x ≠ NaN → last_valid l = x.
Proof.
  intros (l' & ->)%last_Some Hx. unfold last_valid.
  rewrite filter_app, filter_cons_True, filter_nil by (by apply notna_true).
  by rewrite last_snoc.
Qed.

(** ** Flags *)

Lemma assign_flag_rows c p d :
  rows (assign_flag c p d) = (λ r, <[c := Flag (p r)]> r) <$> rows d.
Proof. apply (assign_rows_fmap c (λ r, Flag (p r))). Qed.

Lemma with_flags_rows d : rows (with_flags d) = flag_row <$> rows d.
Proof.
  unfold with_flags. rewrite !assign_flag_rows, <- !list_fmap_compose.
  apply list_fmap_ext. intros _ r _. unfold flag_row. simpl.
  unfold is_follow_up, is_assigned, is_lost, is_converted, is_not_connected.
  by rewrite !cell_at_insert_ne.
Qed.

Lemma flag_row_other c r :
  c ∉ ["connected_flag"; "not_connected_flag"; "converted_flag"; "lost_flag";
       "assigned_to_agent_flag"; "follow_up_flag"] →
  cell_at c (flag_row r) = cell_at c r.
Proof.
  intros Hc. unfold flag_row.
  rewrite !cell_at_insert_ne; [done|..]; intros <-; apply Hc;
    repeat first [apply list_elem_of_here | apply list_elem_of_further].
Qed.

Lemma is_connected_flag_row r : is_connected (flag_row r) = is_connected r.
Proof. unfold is_connected. rewrite flag_row_other; [done|not_in_list]. Qed.

Lemma is_not_connected_flag_row r : is_not_connected (flag_row r) = is_not_connected r.
Proof. unfold is_not_connected. rewrite flag_row_other; [done|not_in_list]. Qed.

Lemma isin_true vals c :
  NaN ∉ vals → isin vals c = true ↔ c ∈ vals.
Proof.
  intros Hn. unfold isin. rewrite existsb_exists. split.
  - intros (x & Hx & Heq). apply py_eq_true in Heq as [-> _]. by apply list_elem_of_In.
  - intros Hc. exists c. split; [by apply list_elem_of_In|].
    apply py_eq_true. split; [done|]. by intros ->.
Qed.

(** ** The latest state per lead, classified *)

Lemma assign_has_column c vals d : c ∈ columns (assign c vals d).
Proof.
  simpl. case_bool_decide; [done|]. apply elem_of_app. right. apply list_elem_of_here.
Qed.

Section Latest.
Context {P : Pandas} {L : PandasLaws P}.

Lemma latest_rows d :
  rows (latest_per_lead_of d)
  = last_row ["bot"; "mobile_number"]
      (filter (λ c, c ∉ ["bot"; "mobile_number"]) (columns d))
      (sort_values [("date", true)] (rows d))
    <$> group_keys ["bot"; "mobile_number"] (sort_values [("date", true)] (rows d)).
Proof. reflexivity. Qed.

(** A row of the latest-state frame: its key is a lead of the data set,
    and its other cells come from the attempts of that lead. *)
Lemma elem_of_latest d r :
  r ∈ rows (latest_per_lead_of d) →
  ∃ b m, b ≠ NaN ∧ m ≠ NaN ∧
    [b; m] ∈ group_keys ["bot"; "mobile_number"] (sort_values [("date", true)] (rows d)) ∧
    r = last_row ["bot"; "mobile_number"]
          (filter (λ c, c ∉ ["bot"; "mobile_number"]) (columns d))
          (sort_values [("date", true)] (rows d)) [b; m] ∧
    cell_at "bot" r = b ∧ cell_at "mobile_number" r = m.
Proof.
  rewrite latest_rows, list_elem_of_fmap. intros (k & -> & Hk).
  destruct (group_keys_lead _ _ Hk) as (b & m & -> & Hb & Hm & _).
  exists b, m. split_and!; try done.
  - apply last_row_bot.
  - apply last_row_mobile.
Qed.

Lemma group_rows_nonempty ks rs k :
  k ∈ group_keys ks rs → group_rows ks k rs ≠ [].
Proof.
  rewrite elem_of_group_keys. intros [_ (r & Hr & Hk)] E.
  assert (r ∈ group_rows ks k rs) as Hin by (by apply list_elem_of_filter).
  rewrite E in Hin. by apply elem_of_nil in Hin.
Qed.

Lemma latest_recording_url d r :
  r ∈ rows (latest_per_lead_of (normalize d)) →
  ∃ s, cell_at "recording_url" r = Str s.
Proof.
  intros (b & m & _ & _ & Hk & -> & _)%elem_of_latest.
  rewrite last_row_other by done.
  rewrite decide_True.
  2:{ apply list_elem_of_filter. split; [not_in_list|]. apply assign_has_column. }
  apply last_valid_Str.
  - intros E. apply (group_rows_nonempty _ _ _ Hk).
    unfold series in E. by apply fmap_nil_inv in E.
  - unfold series. apply Forall_fmap, Forall_forall. intros r Hr.
    apply list_elem_of_filter in Hr as [_ Hr].
    rewrite sort_values_perm in Hr. by apply normalize_recording_url in Hr.
Qed.

(** C4: every record of the latest-state frame carries six flags.
    [connected] and [not_connected] are each other's negation, and
    [connected] says that the normalized recording URL, a string, is not
    empty; at most one of [converted], [lost] and [assigned_to_agent]
    holds; [follow_up] holds exactly when the outcome is none of "assign
    to live agent", "converted" and "lost". *)
Theorem C4_flags d r :
  r ∈ rows (with_flags (latest_per_lead_of (normalize d))) →
  ∃ connected converted_ lost_ assigned follow_up url,
    cell_at "connected_flag" r = Flag connected ∧
    cell_at "not_connected_flag" r = Flag (negb connected) ∧
    cell_at "recording_url" r = Str url ∧
    (connected = true ↔ url ≠ "") ∧
    cell_at "converted_flag" r = Flag converted_ ∧
    cell_at "lost_flag" r = Flag lost_ ∧
    cell_at "assigned_to_agent_flag" r = Flag assigned ∧
    cell_at "follow_up_flag" r = Flag follow_up ∧
    converted_ && lost_ = false ∧
    converted_ && assigned = false ∧
    lost_ && assigned = false ∧
    (follow_up = true ↔ cell_at "outcome" r ∉ follow_up_exclude) ∧
    follow_up = negb (converted_ || lost_ || assigned).
Proof.
  rewrite with_flags_rows, list_elem_of_fmap. intros (r0 & -> & Hr0).
  destruct (latest_recording_url _ _ Hr0) as [url Hurl].
  exists (is_connected r0), (is_converted r0), (is_lost r0), (is_assigned r0),
    (is_follow_up r0), url.
  assert (Ho : cell_at "outcome" (flag_row r0) = cell_at "outcome" r0)
    by (apply flag_row_other; not_in_list).
  assert (Hu : cell_at "recording_url" (flag_row r0) = Str url)
    by (rewrite flag_row_other; [done|not_in_list]).
  rewrite Ho, Hu.
  unfold flag_row at 1 2 3 4 5 6.
  rewrite !cell_at_insert_ne by done.
  split_and!; try (by rewrite ?cell_at_insert_ne, ?cell_at_insert by done).
  - rewrite !cell_at_insert_ne by done. rewrite cell_at_insert.
    unfold is_connected, is_not_connected. by rewrite negb_involutive.
  - unfold is_connected. rewrite Hurl. simpl.
    rewrite negb_true_iff, bool_decide_eq_false. split; congruence.
  - unfold is_converted, is_lost. destruct (cell_at "outcome" r0) as [|s| | |]; try done.
    simpl. do 2 case_bool_decide; try done. congruence.
  - unfold is_converted, is_assigned. destruct (cell_at "outcome" r0) as [|s| | |]; try done.
    simpl. do 2 case_bool_decide; try done. congruence.
  - unfold is_lost, is_assigned. destruct (cell_at "outcome" r0) as [|s| | |]; try done.
    simpl. do 2 case_bool_decide; try done. congruence.
  - unfold is_follow_up. rewrite negb_true_iff, <- not_true_iff_false.
    rewrite isin_true; [done|]. unfold follow_up_exclude. not_in_list.
  - unfold is_follow_up, is_converted, is_lost, is_assigned, isin, follow_up_exclude.
    simpl. rewrite orb_false_r.
    destruct (py_eq _ (Str "assign to live agent")), (py_eq _ (Str "converted")),
      (py_eq _ (Str "lost")); done.
Qed.

End Latest.

(** ** Counting leads *)

Lemma nunique_NoDup l :
  NoDup l → Forall (λ c, c ≠ NaN) l → nunique l = Z.of_nat (length l).
Proof.
  intros Hnd Hall. unfold nunique. rewrite filter_all, unique_NoDup; [done..|].
  eapply Forall_impl; [done|]. intros c. by rewrite notna_true.
Qed.

Lemma count_leads_length p rs :
  NoDup (series "mobile_number" rs) →
  Forall (λ r, cell_at "mobile_number" r ≠ NaN) rs →
  count_leads p rs = Z.of_nat (length (filter (λ r, p r = true) rs)).
Proof.
  intros Hnd Hall. unfold count_leads.
  rewrite nunique_NoDup, series_length; [done|..].
  - eapply sublist_NoDup; [exact Hnd|]. unfold series.
    apply fmap_sublist, sublist_filter.
  - unfold series. apply Forall_fmap, Forall_forall. intros r Hr.
    apply list_elem_of_filter in Hr as [_ Hr]. rewrite Forall_forall in Hall. by apply Hall.
Qed.

Lemma filter_negb_length {A} (p q : A → bool) (l : list A) :
  (∀ x, q x = negb (p x)) →
  (length (filter (λ x, p x = true) l) + length (filter (λ x, q x = true) l))%nat
  = length l.
Proof.
  intros Hq. induction l as [|x l IH]; [done|].
  rewrite !filter_cons.
  destruct (decide (p x = true)) as [Hp|Hp], (decide (q x = true)) as [Hq'|Hq'];
    simpl; rewrite Hq in Hq'.
  - rewrite Hp in Hq'. done.
  - lia.
  - lia.
  - apply not_true_is_false in Hp. rewrite Hp in Hq'. done.
Qed.

Section Counts.
Context {P : Pandas} {L : PandasLaws P}.

(** The rows of one bot in the flagged latest-state frame. *)
Lemma elem_of_bot_latest d b r :
  r ∈ rows_of_bot b (rows (with_flags (latest_per_lead_of d))) ↔
  b ≠ NaN ∧ cell_at "bot" r = b ∧ cell_at "mobile_number" r ≠ NaN ∧
  [b; cell_at "mobile_number" r]
    ∈ group_keys ["bot"; "mobile_number"] (sort_values [("date", true)] (rows d)) ∧
  r = flag_row (last_row ["bot"; "mobile_number"]
                  (filter (λ c, c ∉ ["bot"; "mobile_number"]) (columns d))
                  (sort_values [("date", true)] (rows d))
                  [b; cell_at "mobile_number" r]).
Proof.
  unfold rows_of_bot.
  rewrite list_elem_of_filter, with_flags_rows, list_elem_of_fmap, py_eq_true.
  split.
  - intros [[Hb Hn] (r0 & -> & Hr0)].
    apply elem_of_latest in Hr0 as (b0 & m & Hb0 & Hm & Hk & -> & Hbot & Hmob).
    rewrite !flag_row_other in * by not_in_list.
    rewrite Hbot in Hb. subst b0. rewrite Hmob. done.
  - intros (Hb & Hbot & Hm & Hk & Hr). split; [by rewrite Hbot|].
    eexists. split; [exact Hr|].
    rewrite latest_rows. apply list_elem_of_fmap. eauto.
Qed.

Lemma bot_latest_NoDup d b :
  NoDup (series "mobile_number" (rows_of_bot b (rows (with_flags (latest_per_lead_of d))))).
Proof.
  unfold series. apply NoDup_fmap_2_strong.
  - intros r1 r2 H1 H2 Heq.
    apply elem_of_bot_latest in H1 as (_ & _ & _ & _ & E1).
    apply elem_of_bot_latest in H2 as (_ & _ & _ & _ & E2).
    rewrite E1, E2, Heq. done.
  - unfold rows_of_bot. apply NoDup_filter.
    rewrite with_flags_rows, latest_rows, <- list_fmap_compose.
    apply NoDup_fmap_2_strong; [|apply NoDup_group_keys].
    intros k1 k2 H1 H2 Heq.
    destruct (group_keys_lead _ _ H1) as (b1 & m1 & -> & _).
    destruct (group_keys_lead _ _ H2) as (b2 & m2 & -> & _).
    simpl in Heq.
    assert (Hb := f_equal (cell_at "bot") Heq).
    assert (Hm := f_equal (cell_at "mobile_number") Heq).
    rewrite !flag_row_other in Hb, Hm by not_in_list.
    rewrite !last_row_bot in Hb. rewrite !last_row_mobile in Hm. congruence.
Qed.

Lemma bot_latest_mobile d b :
  Forall (λ r, cell_at "mobile_number" r ≠ NaN)
    (rows_of_bot b (rows (with_flags (latest_per_lead_of d)))).
Proof.
  apply Forall_forall. intros r Hr.
  by apply elem_of_bot_latest in Hr as (_ & _ & Hm & _).
Qed.

(** A bot has as many rows in the latest-state frame as it has leads. *)
Lemma bot_latest_length d b :
  Z.of_nat (length (rows_of_bot b (rows (with_flags (latest_per_lead_of d)))))
  = unique_leads d b.
Proof.
  unfold unique_leads, nunique.
  rewrite <- (series_length "mobile_number"). f_equal.
  apply Permutation_length, NoDup_Permutation.
  - apply bot_latest_NoDup.
  - apply NoDup_unique.
  - intros m. rewrite elem_of_unique, list_elem_of_filter, notna_true.
    unfold series. rewrite !list_elem_of_fmap. split.
    + intros (r & -> & Hr).
      apply elem_of_bot_latest in Hr as (Hb & Hbot & Hm & Hk & _).
      split; [done|].
      apply elem_of_group_keys in Hk as [_ (r0 & Hr0 & Hkey)].
      injection Hkey as Hb0 Hm0.
      exists r0. split; [done|].
      apply list_elem_of_filter. rewrite sort_values_perm in Hr0.
      split; [|done]. apply py_eq_true. by rewrite Hb0.
    + intros [Hm (r0 & -> & Hr0)].
      apply list_elem_of_filter in Hr0 as [Hb Hr0].
      apply py_eq_true in Hb as [Hb Hn].
      set (m := cell_at "mobile_number" r0) in *.
      exists (flag_row (last_row ["bot"; "mobile_number"]
                (filter (λ c, c ∉ ["bot"; "mobile_number"]) (columns d))
                (sort_values [("date", true)] (rows d)) [b; m])).
      assert (Hmob : cell_at "mobile_number"
                (flag_row (last_row ["bot"; "mobile_number"]
                   (filter (λ c, c ∉ ["bot"; "mobile_number"]) (columns d))
                   (sort_values [("date", true)] (rows d)) [b; m])) = m).
      { rewrite flag_row_other by not_in_list. apply last_row_mobile. }
      split; [done|].
      apply elem_of_bot_latest. rewrite Hmob. split_and!; try done.
      * by rewrite <- Hb.
      * rewrite flag_row_other by not_in_list. apply last_row_bot.
      * apply elem_of_group_keys. split.
        -- apply valid_key_lead. split; [by rewrite <- Hb|done].
        -- exists r0. split; [by rewrite sort_values_perm|].
           unfold key_of. simpl. by rewrite Hb.
Qed.

(** The leads of a bot are the connected ones and the others. *)
Lemma connected_split d b :
  0 ≤ connected_count (with_flags (latest_per_lead_of d)) b ∧
  0 ≤ not_connected_count (with_flags (latest_per_lead_of d)) b ∧
  connected_count (with_flags (latest_per_lead_of d)) b
  + not_connected_count (with_flags (latest_per_lead_of d)) b
  = unique_leads d b.
Proof.
  unfold connected_count, not_connected_count.
  rewrite !count_leads_length by (apply bot_latest_NoDup || apply bot_latest_mobile).
  split_and!; try lia.
  rewrite <- bot_latest_length, <- Nat2Z.inj_add. f_equal.
  apply filter_negb_length. intros r.
  unfold is_connected, is_not_connected. by rewrite negb_involutive.
Qed.

(** C5: for every bot, the connected leads and the leads that are not
    connected add up to the unique leads, the distinct mobile numbers among
    the attempts of the bot. *)
Theorem C5_connected_plus_not_connected d b :
  connected_count (with_flags (latest_per_lead_of d)) b
  + not_connected_count (with_flags (latest_per_lead_of d)) b
  = unique_leads d b.
Proof. apply connected_split. Qed.

Lemma unique_leads_nonneg d b : 0 ≤ unique_leads d b.
Proof. unfold unique_leads, nunique. lia. Qed.

(** C6: a bot without unique leads gets 0.0 for both ratios, and nothing
    is divided; a bot with unique leads gets the quotient of its attempts,
    and of its connected leads, by its unique leads, rounded to two
    places.  The connected leads are at most the unique leads, so that
    the connectivity is a fraction between 0.0 and 1.0, not scaled by 100. *)
Theorem C6_ratios d b :
  let latest := with_flags (latest_per_lead_of d) in
  0 ≤ unique_leads d b ∧
  (unique_leads d b = 0 →
     avg_attempts d b = fzero ∧ connectivity_perc d latest b = fzero) ∧
  (0 < unique_leads d b →
     avg_attempts d b = round2 (fdiv (total_attempts d b) (unique_leads d b)) ∧
     connectivity_perc d latest b
       = round2 (fdiv (connected_count latest b) (unique_leads d b)) ∧
     0 ≤ connected_count latest b ≤ unique_leads d b ∧
     fle fzero (connectivity_perc d latest b) ∧
     fle (connectivity_perc d latest b) fone).
Proof.
  intros latest. split_and!.
  - apply unique_leads_nonneg.
  - intros E. unfold avg_attempts, connectivity_perc, ratio. by rewrite E.
  - intros Hpos. unfold avg_attempts, connectivity_perc, ratio.
    assert ((0 <? unique_leads d b) = true) as -> by (by apply Z.ltb_lt).
    destruct (connected_split d b) as (Hc & Hn & Hsum). fold latest in Hc, Hn, Hsum.
    assert (0 ≤ connected_count latest b ≤ unique_leads d b) as Hr by lia.
    destruct (round2_fdiv_unit _ _ Hr Hpos). done.
Qed.

End Counts.

(** The figures of the specification's scenario: two attempts of one
    lead of bot A, the later one recorded and lost. *)
Lemma C5_witness :
  connected_count
     (with_flags (@latest_per_lead_of RefLib.lib (@normalize RefLib.lib scenario))) (Str "A")
  + not_connected_count
     (with_flags (@latest_per_lead_of RefLib.lib (@normalize RefLib.lib scenario))) (Str "A")
  = unique_leads (@normalize RefLib.lib scenario) (Str "A").
Proof.
  apply (@C5_connected_plus_not_connected RefLib.lib RefLaws.laws).
Defined.

(** ** Rows without a mobile number *)

Lemma valid_key_has_mobile r :
  valid_key (key_of ["bot"; "mobile_number"] r) = true → has_mobile r = true.
Proof.
  change (key_of ["bot"; "mobile_number"] r)
    with [cell_at "bot" r; cell_at "mobile_number" r].
  rewrite valid_key_lead. unfold has_mobile.
  rewrite notna_true. tauto.
Qed.

Lemma valid_keys_numbered (rs : list (gmap string cell)) :
  filter (λ k, valid_key k = true)
    (key_of ["bot"; "mobile_number"] <$> filter (λ r, has_mobile r = true) rs)
  = filter (λ k, valid_key k = true) (key_of ["bot"; "mobile_number"] <$> rs).
Proof.
  induction rs as [|r rs IH]; [done|].
  rewrite fmap_cons, !filter_cons.
  destruct (decide (has_mobile r = true)) as [Hm|Hm].
  - rewrite fmap_cons, filter_cons, IH. done.
  - rewrite IH. destruct (decide (valid_key _ = true)) as [Hv|]; [|done].
    by apply valid_key_has_mobile in Hv.
Qed.

Lemma group_keys_numbered rs :
  group_keys ["bot"; "mobile_number"] (filter (λ r, has_mobile r = true) rs)
  = group_keys ["bot"; "mobile_number"] rs.
Proof. unfold group_keys. by rewrite valid_keys_numbered. Qed.

Lemma group_rows_numbered k rs :
  valid_key k = true →
  group_rows ["bot"; "mobile_number"] k (filter (λ r, has_mobile r = true) rs)
  = group_rows ["bot"; "mobile_number"] k rs.
Proof.
  intros Hv. unfold group_rows. rewrite list_filter_filter.
  apply list_filter_iff. intros r. split; [tauto|].
  intros <-. split; [done|]. by apply valid_key_has_mobile.
Qed.

Lemma notna_mobiles_numbered b (rs : list (gmap string cell)) :
  filter (λ c, notna c = true)
    (series "mobile_number" (rows_of_bot b (filter (λ r, has_mobile r = true) rs)))
  = filter (λ c, notna c = true) (series "mobile_number" (rows_of_bot b rs)).
Proof.
  unfold rows_of_bot, series. induction rs as [|r rs IH]; [done|].
  rewrite !filter_cons.
  destruct (decide (has_mobile r = true)) as [Hm|Hm];
    [rewrite filter_cons|];
    (destruct (decide (py_eq (cell_at "bot" r) b = true)) as [Hb|Hb]; [|done]);
    rewrite ?fmap_cons, ?filter_cons, IH; [done|].
  by rewrite decide_False.
Qed.

Lemma rows_of_bot_split b (rs : list (gmap string cell)) :
  (length (rows_of_bot b (filter (λ r, has_mobile r = true) rs))
   + length (filter (λ r, has_mobile r = false) (rows_of_bot b rs)))%nat
  = length (rows_of_bot b rs).
Proof.
  unfold rows_of_bot. induction rs as [|r rs IH]; [done|].
  rewrite !filter_cons.
  destruct (decide (has_mobile r = true)) as [Hm|Hm];
    [rewrite filter_cons|];
    (destruct (decide (py_eq (cell_at "bot" r) b = true)) as [Hb|Hb]; [|done]);
    rewrite ?filter_cons.
  - rewrite decide_False by (by rewrite Hm). simpl. by rewrite IH.
  - apply not_true_is_false in Hm. rewrite decide_True by done. simpl.
    rewrite <- IH. lia.
Qed.

Section Numbered.
Context {P : Pandas} {L : PandasLaws P}.

Lemma latest_numbered d : latest_per_lead_of d = latest_of_numbered d.
Proof.
  unfold latest_per_lead_of, latest_of_numbered, groupby_last. simpl. f_equal.
  rewrite group_keys_numbered.
  apply Forall_fmap_ext_1, Forall_forall. intros k Hk.
  apply elem_of_group_keys in Hk as [Hv _].
  unfold last_row. by rewrite group_rows_numbered.
Qed.

Lemma latest_mobile d r :
  r ∈ rows (latest_per_lead_of d) → cell_at "mobile_number" r ≠ NaN.
Proof. intros (b & m & _ & Hm & _ & _ & _ & <-)%elem_of_latest. done. Qed.

Lemma project_cell cols c (r : gmap string cell) :
  c ∈ cols → cell_at c (list_to_map ((λ c, (c, cell_at c r)) <$> cols)) = cell_at c r.
Proof.
  intros Hc. unfold cell_at at 1.
  rewrite (lookup_list_to_map_fun (λ c, cell_at c r)). by rewrite decide_True.
Qed.

Lemma project_rows cols d :
  rows (project cols d)
  = (λ r, list_to_map ((λ c, (c, cell_at c r)) <$> cols)) <$> rows d.
Proof. reflexivity. Qed.

Lemma select_rows p d r : r ∈ rows (select p d) → r ∈ rows d.
Proof. unfold select. cbn [rows]. rewrite list_elem_of_filter. tauto. Qed.

Lemma sheets_mobile d name t r :
  (name, t) ∈ sheets_of (latest_per_lead_of d) → r ∈ rows t →
  cell_at "mobile_number" r ≠ NaN.
Proof.
  intros Ht Hr. unfold sheets_of in Ht.
  repeat (apply elem_of_cons in Ht as [Ht|Ht]; [injection Ht as -> ->|]);
    [..|by apply elem_of_nil in Ht].
  1-6: apply select_rows in Hr; by eapply latest_mobile.
  change (r ∈ sort_values [("bot", true); ("date", false)]
                (rows (project lead_summary_cols (with_flags (latest_per_lead_of d)))))
    in Hr.
  rewrite sort_values_perm, project_rows in Hr.
  apply list_elem_of_fmap in Hr as (r0 & -> & Hr0).
  rewrite with_flags_rows in Hr0. apply list_elem_of_fmap in Hr0 as (r1 & -> & Hr1).
  rewrite project_cell
    by (unfold lead_summary_cols; apply list_elem_of_further, list_elem_of_here).
  rewrite flag_row_other by not_in_list. by eapply latest_mobile.
Qed.

Lemma rows_of_bot_eq b (rs : list (gmap string cell)) :
  b ≠ NaN → rows_of_bot b rs = filter (λ r, cell_at "bot" r = b) rs.
Proof.
  intros Hb. unfold rows_of_bot. apply list_filter_iff. intros r.
  rewrite py_eq_true. split; [by intros [? _]|]. intros <-. done.
Qed.

Lemma attempts_split b (rs : list (gmap string cell)) :
  length (filter (λ r, cell_at "bot" r = b) rs)
  = (length (attempts_with_mobile b rs) + length (attempts_without_mobile b rs))%nat.
Proof.
  unfold attempts_with_mobile, attempts_without_mobile.
  induction rs as [|r rs IH]; [done|].
  rewrite !filter_cons.
  destruct (decide (cell_at "bot" r = b)) as [Hb|Hb].
  - destruct (decide (cell_at "mobile_number" r = NaN)) as [Hm|Hm].
    + rewrite decide_False, decide_True by tauto. simpl. lia.
    + rewrite decide_True, decide_False by tauto. simpl. lia.
  - rewrite !decide_False by tauto. done.
Qed.

Lemma mobiles_with_mobile b (rs : list (gmap string cell)) :
  filter (λ c, notna c = true)
    (series "mobile_number" (filter (λ r, cell_at "bot" r = b) rs))
  = series "mobile_number" (attempts_with_mobile b rs).
Proof.
  unfold attempts_with_mobile, series.
  induction rs as [|r rs IH]; [done|].
  rewrite !filter_cons.
  destruct (decide (cell_at "bot" r = b)) as [Hb|Hb].
  - cbn [fmap list_fmap]. rewrite filter_cons.
    destruct (decide (notna (cell_at "mobile_number" r) = true)) as [Hm|Hm].
    + rewrite decide_True by (split; [done|by apply notna_true]).
      cbn [fmap list_fmap]. by f_equal.
    + rewrite decide_False; [done|]. rewrite notna_true in Hm. tauto.
  - rewrite decide_False by tauto. done.
Qed.

(** C10: the attempts of a bot without a mobile number are counted in its
    total attempts, one each, and in nothing else.  The total attempts of
    the bot are its attempts with a mobile number and its attempts without
    one, together; its unique leads are the distinct mobile numbers of its
    attempts that have one.  The latest-state frame is the one computed
    from the attempts that have a mobile number: none of its records and
    no row of the seven tables lacks one, and every count of leads of the
    bot is the number of its records, in that frame, that the mask
    selects. *)
Theorem C10_rows_without_mobile_number d b :
  b ≠ NaN →
  total_attempts d b
    = Z.of_nat (length (attempts_with_mobile b (rows d)))
      + Z.of_nat (length (attempts_without_mobile b (rows d)))
  ∧ unique_leads d b
    = Z.of_nat (length (unique (series "mobile_number"
                                  (attempts_with_mobile b (rows d)))))
  ∧ latest_per_lead_of d = latest_of_numbered d
  ∧ (∀ r, r ∈ rows (latest_per_lead_of d) → cell_at "mobile_number" r ≠ NaN)
  ∧ (∀ name t r, (name, t) ∈ sheets_of (latest_per_lead_of d) → r ∈ rows t →
       cell_at "mobile_number" r ≠ NaN)
  ∧ (∀ p, count_leads p (rows_of_bot b (rows (with_flags (latest_per_lead_of d))))
        = Z.of_nat (length (filter (λ r, cell_at "bot" r = b ∧ p r = true)
                              (rows (with_flags (latest_of_numbered d)))))).
Proof.
  intros Hb. split_and!.
  - unfold total_attempts. rewrite rows_of_bot_eq, attempts_split by done. lia.
  - unfold unique_leads, nunique.
    by rewrite rows_of_bot_eq, mobiles_with_mobile by done.
  - apply latest_numbered.
  - apply latest_mobile.
  - apply sheets_mobile.
  - intros p.
    rewrite (count_leads_length p _ (bot_latest_NoDup d b) (bot_latest_mobile d b)).
    rewrite rows_of_bot_eq, list_filter_filter, latest_numbered by done.
    do 2 f_equal. apply list_filter_iff. intros r. tauto.
Qed.

End Numbered.

(** ** How many rows normalization and reduction leave *)

Section RowCounts.
Context {P : Pandas} {L : PandasLaws P}.

Lemma dated_length d :
  length (rows (dated d))
  = length (filter (λ c, notna c = true) (to_datetime (series "date" (rows d)))).
Proof.
  unfold dated, dropna_rows, select. cbn [rows forallb].
  unfold set_date at 1. cbn [rows assign].
  rewrite filter_zip_insert_length.
  - by rewrite set_outcome_series_ne.
  - by rewrite to_datetime_length, series_length.
Qed.

Lemma latest_length_keys d :
  length (rows (latest_per_lead_of d))
  = length (group_keys ["bot"; "mobile_number"] (rows d)).
Proof.
  rewrite latest_rows, length_fmap. apply Permutation_length, group_keys_perm.
  apply sort_values_perm.
Qed.

#[local] Instance pair_key_inj : Inj (=) (=) (λ p : cell * cell, [p.1; p.2]).
Proof. intros [a b] [a' b'] E. simpl in E. congruence. Qed.

Lemma group_keys_lead_pairs d :
  (∀ r, r ∈ rows d → cell_at "bot" r ≠ NaN) →
  group_keys ["bot"; "mobile_number"] (rows d)
  ≡ₚ (λ p : cell * cell, [p.1; p.2]) <$> lead_pairs d.
Proof.
  intros Hbot. apply NoDup_Permutation.
  - apply NoDup_group_keys.
  - apply (NoDup_fmap_2 _), NoDup_unique.
  - intros k. rewrite elem_of_group_keys, list_elem_of_fmap. unfold lead_pairs. split.
    + intros [Hv (r & Hr & <-)].
      exists (cell_at "bot" r, cell_at "mobile_number" r). split; [done|].
      apply elem_of_unique, list_elem_of_filter. split.
      * by apply valid_key_has_mobile in Hv.
      * apply list_elem_of_fmap. eauto.
    + intros (p & -> & Hp).
      apply elem_of_unique, list_elem_of_filter in Hp as [Hm Hp].
      apply list_elem_of_fmap in Hp as (r & -> & Hr). simpl in *.
      split; [|by exists r].
      apply valid_key_lead. split; [by apply Hbot|by apply notna_true].
Qed.

(** C8, amended: the latest-state frame has one row for every distinct
    pair of a bot and a mobile number among the normalized rows whose
    mobile number is not missing; and normalization keeps exactly the rows
    whose date was parsed, no other step removes one. *)
Theorem C8_row_counts d :
  length (rows (latest_per_lead_of (normalize d))) = length (lead_pairs (normalize d))
  ∧ length (rows (normalize d))
    = length (filter (λ c, notna c = true) (to_datetime (series "date" (rows d))))
  ∧ (length (rows (normalize d)) ≤ length (rows d))%nat.
Proof.
  split_and!.
  - rewrite latest_length_keys, group_keys_lead_pairs, length_fmap; [done|].
    intros r. apply normalize_bot_notna.
  - by rewrite normalize_length, dated_length.
  - rewrite normalize_length, dated_length.
    etrans; [apply length_filter|]. by rewrite to_datetime_length, series_length.
Qed.

End RowCounts.

(** C8, as stated, fails when an attempt has no mobile number: the two
    attempts of [null_mobile] make two distinct pairs, (A, missing) and
    (A, 111), and one latest-state row. *)
Lemma C8_counterexample :
  length (all_pairs (@normalize RefLib.lib null_mobile)) = 2%nat
  ∧ length (rows (@latest_per_lead_of RefLib.lib (@normalize RefLib.lib null_mobile))) = 1%nat.
Proof. split; vm_compute; reflexivity. Qed.

Lemma C8_witness :
  length (rows (@latest_per_lead_of RefLib.lib (@normalize RefLib.lib null_mobile)))
  = length (lead_pairs (@normalize RefLib.lib null_mobile))
  ∧ length (rows (@normalize RefLib.lib null_mobile))
    = length (filter (λ c, notna c = true)
                (@to_datetime RefLib.lib (series "date" (rows null_mobile))))
  ∧ (length (rows (@normalize RefLib.lib null_mobile)) ≤ length (rows null_mobile))%nat.
Proof. apply (@C8_row_counts RefLib.lib RefLaws.laws). Defined.

(** ** The reduction and the summary on sample call logs *)

Section Samples.
#[local] Existing Instance RefLib.lib.

(** C2: a lead with two attempts at distinct timestamps whose later
    attempt has no outcome.  [GroupBy.last] takes, column by column, the
    last value that is not missing: the latest state has the date and the
    recording of the later attempt and the outcome of the earlier one, and
    the lead is listed as converted and as not connected. *)
Theorem C2_latest_state_mixes_attempts :
  state_of (normalize stale_outcome)
    = [(Time 20240101, Str "converted", Str "http://x"); (Time 20240102, NaN, Str "")]
  ∧ state_of (latest_per_lead_of (normalize stale_outcome))
    = [(Time 20240102, Str "converted", Str "")]
  ∧ sheet_sizes (returned_sheets (run stale_outcome))
    = [("connected", 0%nat); ("not_connected", 1%nat); ("converted", 1%nat);
       ("lost", 0%nat); ("assigned_to_human_agent", 0%nat); ("follow_up", 0%nat);
       ("lead_summary", 1%nat)].
Proof. split_and!; vm_compute; reflexivity. Qed.

(** C7: a bot that is called "Metric".  The loop stores its figures
    under the key ['Metric'] of every metric row, over the label; the
    summary has the figures as index and no column at all. *)
Theorem C7_bot_named_Metric_overwrites_labels :
  returned_report (run metric_bot)
  = Some {| index := [VInt 1; VInt 1; VFloat (100 # 100)%Q; VInt 1;
                      VFloat (100 # 100)%Q; VInt 0; VInt 0; VInt 0; VInt 1; VInt 0];
            report_columns := [];
            report_values := [[]; []; []; []; []; []; []; []; []; []] |}.
Proof. vm_compute. reflexivity. Qed.

Lemma C4_witness :
  scenario_lead ∈ rows (with_flags (latest_per_lead_of (normalize scenario))) ∧
  ∃ connected converted_ lost_ assigned follow_up url,
    cell_at "connected_flag" scenario_lead = Flag connected ∧
    cell_at "not_connected_flag" scenario_lead = Flag (negb connected) ∧
    cell_at "recording_url" scenario_lead = Str url ∧
    (connected = true ↔ url ≠ "") ∧
    cell_at "converted_flag" scenario_lead = Flag converted_ ∧
    cell_at "lost_flag" scenario_lead = Flag lost_ ∧
    cell_at "assigned_to_agent_flag" scenario_lead = Flag assigned ∧
    cell_at "follow_up_flag" scenario_lead = Flag follow_up ∧
    converted_ && lost_ = false ∧
    converted_ && assigned = false ∧
    lost_ && assigned = false ∧
    (follow_up = true ↔ cell_at "outcome" scenario_lead ∉ follow_up_exclude) ∧
    follow_up = negb (converted_ || lost_ || assigned).
Proof.
  assert (H : scenario_lead ∈ rows (with_flags (latest_per_lead_of (normalize scenario)))).
  { assert (E : rows (with_flags (latest_per_lead_of (normalize scenario)))
                = [scenario_lead]) by (vm_compute; reflexivity).
    rewrite E. apply list_elem_of_here. }
  split; [exact H|].
  exact (@C4_flags RefLib.lib RefLaws.laws scenario scenario_lead H).
Defined.

Lemma C6_witness :
  let latest := with_flags (latest_per_lead_of (normalize scenario)) in
  0 ≤ unique_leads (normalize scenario) (Str "A") ∧
  (unique_leads (normalize scenario) (Str "A") = 0 →
     avg_attempts (normalize scenario) (Str "A") = fzero ∧
     connectivity_perc (normalize scenario) latest (Str "A") = fzero) ∧
  (0 < unique_leads (normalize scenario) (Str "A") →
     avg_attempts (normalize scenario) (Str "A")
       = round2 (fdiv (total_attempts (normalize scenario) (Str "A"))
                      (unique_leads (normalize scenario) (Str "A"))) ∧
     connectivity_perc (normalize scenario) latest (Str "A")
       = round2 (fdiv (connected_count latest (Str "A"))
                      (unique_leads (normalize scenario) (Str "A"))) ∧
     0 ≤ connected_count latest (Str "A") ≤ unique_leads (normalize scenario) (Str "A") ∧
     fle fzero (connectivity_perc (normalize scenario) latest (Str "A")) ∧
     fle (connectivity_perc (normalize scenario) latest (Str "A")) fone).
Proof. exact (@C6_ratios RefLib.lib RefLaws.laws (normalize scenario) (Str "A")). Defined.

Lemma C10_witness :
  (total_attempts (normalize null_mobile) (Str "A")
     = Z.of_nat (length (attempts_with_mobile (Str "A") (rows (normalize null_mobile))))
       + Z.of_nat (length (attempts_without_mobile (Str "A")
                             (rows (normalize null_mobile))))
   ∧ unique_leads (normalize null_mobile) (Str "A")
     = Z.of_nat (length (unique (series "mobile_number"
                  (attempts_with_mobile (Str "A") (rows (normalize null_mobile))))))
   ∧ latest_per_lead_of (normalize null_mobile) = latest_of_numbered (normalize null_mobile)
   ∧ (∀ r, r ∈ rows (latest_per_lead_of (normalize null_mobile)) →
           cell_at "mobile_number" r ≠ NaN)
   ∧ (∀ name t r, (name, t) ∈ sheets_of (latest_per_lead_of (normalize null_mobile)) →
        r ∈ rows t → cell_at "mobile_number" r ≠ NaN)
   ∧ (∀ p, count_leads p (rows_of_bot (Str "A")
              (rows (with_flags (latest_per_lead_of (normalize null_mobile)))))
         = Z.of_nat (length (filter (λ r, cell_at "bot" r = Str "A" ∧ p r = true)
              (rows (with_flags (latest_of_numbered (normalize null_mobile))))))))
  ∧ length (attempts_with_mobile (Str "A") (rows (normalize null_mobile))) = 1%nat
  ∧ length (attempts_without_mobile (Str "A") (rows (normalize null_mobile))) = 1%nat
  ∧ total_attempts (normalize null_mobile) (Str "A") = 2
  ∧ unique_leads (normalize null_mobile) (Str "A") = 1
  ∧ length (rows (latest_per_lead_of (normalize null_mobile))) = 1%nat.
Proof.
  split.
  - apply (@C10_rows_without_mobile_number RefLib.lib RefLaws.laws
             (normalize null_mobile) (Str "A")).
    discriminate.
  - split_and!; vm_compute; reflexivity.
Defined.

End Samples.

(** ** What the reduction keeps of the last attempt *)

Lemma StronglySorted_filter {A} (R : relation A) (Q : A → Prop)
    `{∀ x, Decision (Q x)} l :
  StronglySorted R l → StronglySorted R (filter Q l).
Proof.
  induction 1 as [|x l Hs IH Hall]; [constructor|].
  rewrite filter_cons. destruct (decide (Q x)); [|done].
  constructor; [done|].
  apply Forall_forall. intros y Hy. apply list_elem_of_filter in Hy as [_ Hy].
  rewrite Forall_forall in Hall. by apply Hall.
Qed.

Lemma elem_of_zip_insert c (rs : list (gmap string cell)) vals r :
  r ∈ zip_with (λ r v, <[c := v]> r) rs vals → cell_at c r ∈ vals.
Proof.
  revert vals. induction rs as [|r0 rs IH]; intros [|v vals] Hr;
    try (by apply elem_of_nil in Hr).
  simpl in Hr. apply elem_of_cons in Hr as [->|Hr].
  - rewrite cell_at_insert. apply list_elem_of_here.
  - apply list_elem_of_further. by apply IH.
Qed.

Lemma assign_columns_incl c c' vals d :
  c' ∈ columns d → c' ∈ columns (assign c vals d).
Proof.
  intros Hc. simpl. case_bool_decide; [done|]. apply elem_of_app. by left.
Qed.

Section LastAttempt.
Context {P : Pandas} {L : PandasLaws P}.

Lemma normalize_date d r :
  r ∈ rows (normalize d) → is_time (cell_at "date" r).
Proof.
  rewrite normalize_rows, list_elem_of_fmap. intros (r0 & -> & Hr0).
  rewrite coerce_row_other by done.
  unfold dated, dropna_rows, select in Hr0. cbn [rows forallb] in Hr0.
  apply list_elem_of_filter in Hr0 as [Hn Hr0].
  rewrite andb_true_r, notna_true in Hn.
  unfold set_date in Hr0 at 1. cbn [rows assign] in Hr0.
  apply elem_of_zip_insert in Hr0.
  pose proof (to_datetime_cells (series "date" (rows (set_outcome d)))) as Hall.
  rewrite Forall_forall in Hall. by destruct (Hall _ Hr0).
Qed.

Lemma normalize_has_date d : "date" ∈ columns (normalize d).
Proof.
  unfold normalize, set_recording_url, set_bot, set_contacted.
  do 3 apply assign_columns_incl.
  unfold dated, dropna_rows, select. cbn [columns].
  apply assign_has_column.
Qed.

(** For every lead, the latest-state record agrees with the last attempt
    of the lead in the order of the sorted frame, in every column in
    which that attempt has a value, the date among them; and no attempt
    of the lead is later than that one.  In a column in which the last
    attempt has no value the record has the last value of an earlier
    attempt. *)
Lemma latest_is_last_attempt d b m :
  let sorted := sort_values [("date", true)] (rows (normalize d)) in
  let attempts := group_rows ["bot"; "mobile_number"] [b; m] sorted in
  let record := last_row ["bot"; "mobile_number"]
                  (filter (λ c, c ∉ ["bot"; "mobile_number"]) (columns (normalize d)))
                  sorted [b; m] in
  [b; m] ∈ group_keys ["bot"; "mobile_number"] sorted →
  ∃ a, last attempts = Some a ∧
    (∀ a', a' ∈ attempts → time_of a' ≤ time_of a) ∧
    (∀ c, c ∈ columns (normalize d) → c ≠ "bot" → c ≠ "mobile_number" →
          cell_at c record = last_valid (series c attempts) ∧
          (cell_at c a ≠ NaN → cell_at c record = cell_at c a)) ∧
    cell_at "date" record = cell_at "date" a.
Proof.
  intros sorted attempts record Hk.
  destruct (last attempts) as [a|] eqn:Hlast.
  2:{ apply last_None in Hlast. by apply group_rows_nonempty in Hk. }
  exists a. split; [done|].
  assert (Hcols : ∀ c, c ∈ columns (normalize d) → c ≠ "bot" → c ≠ "mobile_number" →
            cell_at c record = last_valid (series c attempts) ∧
            (cell_at c a ≠ NaN → cell_at c record = cell_at c a)).
  { intros c Hc H1 H2. unfold record. rewrite last_row_other by done.
    fold attempts. rewrite decide_True.
    2:{ apply list_elem_of_filter. split; [|done].
        intros Hin. repeat (apply elem_of_cons in Hin as [Hin|Hin]; [done|]).
        by apply elem_of_nil in Hin. }
    split; [done|]. intros Hna. apply last_valid_last; [|done].
    unfold series. by rewrite fmap_last, Hlast. }
  assert (Hin : a ∈ attempts) by (by apply last_Some_elem_of).
  assert (Hsorted : ∀ r, r ∈ sorted → is_time (cell_at "date" r)).
  { intros r Hr. unfold sorted in Hr. rewrite sort_values_perm in Hr.
    by apply normalize_date in Hr. }
  split_and!.
  - intros a' Ha'.
    assert (Hs : StronglySorted date_le attempts).
    { apply StronglySorted_filter, sort_values_date, Forall_forall.
      intros r Hr. by eapply normalize_date. }
    apply last_Some in Hlast as (l' & Hl'). rewrite Hl' in Hs, Ha'.
    apply elem_of_app in Ha' as [Ha'|Ha'].
    + eapply (StronglySorted_app_1_elem_of date_le); [exact Hs|done|apply list_elem_of_here].
    + apply list_elem_of_singleton in Ha' as ->. lia.
  - done.
  - apply Hcols; [apply normalize_has_date|done..|].
    apply list_elem_of_filter in Hin as [_ Hin].
    destruct (Hsorted _ Hin) as [t ->]. done.
Qed.

End LastAttempt.

(** ** The summary matrix *)

Section Dicts.
Context {F : Type}.
Implicit Types d : dict F.

Lemma dict_set_fresh k v d : k ∉ d.*1 → dict_set k v d = (d ++ [(k, v)])%list.
Proof.
  induction d as [|[k' v'] d IH]; [done|].
  rewrite fmap_cons, not_elem_of_cons. simpl. intros [Hne Hk].
  rewrite bool_decide_eq_false_2 by congruence. by rewrite IH.
Qed.

Lemma foldl_dict_set (f : cell → value F) d (bots : list cell) :
  NoDup bots → (∀ b, b ∈ bots → b ∉ d.*1) →
  foldl (λ acc b, dict_set b (f b) acc) d bots = (d ++ ((λ b, (b, f b)) <$> bots))%list.
Proof.
  intros Hnd. revert d. induction Hnd as [|b bots Hb Hnd IH]; intros d Hd.
  - by rewrite app_nil_r.
  - simpl. rewrite dict_set_fresh by (apply Hd, list_elem_of_here).
    rewrite IH.
    + by rewrite <- app_assoc.
    + intros b' Hb'. rewrite fmap_app, elem_of_app. intros [Hin|Hin].
      * by apply (Hd b'); [apply list_elem_of_further|].
      * apply list_elem_of_singleton in Hin. simpl in Hin. congruence.
Qed.

Lemma dict_get_fmap (f : cell → value F) (bots : list cell) b :
  b ∈ bots → dict_get b ((λ b, (b, f b)) <$> bots) = Some (f b).
Proof.
  induction bots as [|b' bots IH]; [by intros ?%elem_of_nil|].
  intros Hb. simpl. case_bool_decide as E; [by rewrite E|].
  apply IH. apply elem_of_cons in Hb as [->|Hb]; done.
Qed.

Lemma row_of_dict lab (f : cell → value F) (bots : list cell) :
  Str "Metric" ∉ bots →
  (λ k, default VNaN (dict_get k ((Str "Metric", lab) :: ((λ b, (b, f b)) <$> bots))))
    <$> (Str "Metric" :: bots)
  = lab :: (f <$> bots).
Proof.
  intros Hm. rewrite fmap_cons. f_equal.
  apply Forall_fmap_ext_1, Forall_forall. intros b Hb. cbn [dict_get].
  rewrite bool_decide_eq_false_2 by (by intros <-).
  by rewrite dict_get_fmap.
Qed.

End Dicts.

Lemma unique_app `{EqDecision A} (l l' : list A) :
  unique (l ++ l') = (unique l ++ filter (λ x, x ∉ l) (unique l'))%list.
Proof.
  induction l as [|x l IH]; simpl.
  - symmetry. apply filter_all, Forall_forall. intros y _. apply not_elem_of_nil.
  - f_equal. rewrite IH, filter_app. f_equal.
    rewrite list_filter_filter. apply list_filter_iff. intros y.
    rewrite not_elem_of_cons. tauto.
Qed.

Lemma unique_app_same `{EqDecision A} (l l' : list A) :
  NoDup l → (∀ x, x ∈ l' → x ∈ l) → unique (l ++ l') = l.
Proof.
  intros Hnd Hin. rewrite unique_app, unique_NoDup by done.
  rewrite filter_none; [apply app_nil_r|].
  apply Forall_forall. intros x Hx Hn. apply Hn, Hin.
  rewrite <- (elem_of_unique l' x). exact Hx.
Qed.

Lemma py_sorted_inr l bots :
  py_sorted l = inr bots → Sorted cell_le bots ∧ bots ≡ₚ l.
Proof.
  unfold py_sorted. destruct (same_kind l); [|done].
  intros E. injection E as <-. split.
  - apply Sorted_merge_sort. intros a b. apply RefLaws.cell_leb_total.
  - apply merge_sort_Permutation.
Qed.

Section SummaryShape.
Context {P : Pandas}.

Lemma loop_rows d latest bots acc :
  let m := foldl (loop_body d latest) acc bots in
  unique_leads_row m
    = foldl (λ a b, dict_set b (VInt (unique_leads d b)) a) (unique_leads_row acc) bots ∧
  total_attempts_row m
    = foldl (λ a b, dict_set b (VInt (total_attempts d b)) a) (total_attempts_row acc) bots ∧
  avg_attempts_row m
    = foldl (λ a b, dict_set b (VFloat (avg_attempts d b)) a) (avg_attempts_row acc) bots ∧
  connected_row m
    = foldl (λ a b, dict_set b (VInt (connected_count latest b)) a) (connected_row acc) bots ∧
  connectivity_perc_row m
    = foldl (λ a b, dict_set b (VFloat (connectivity_perc d latest b)) a)
        (connectivity_perc_row acc) bots ∧
  not_connected_row m
    = foldl (λ a b, dict_set b (VInt (not_connected_count latest b)) a)
        (not_connected_row acc) bots ∧
  follow_up_row m
    = foldl (λ a b, dict_set b (VInt (follow_up_count latest b)) a) (follow_up_row acc) bots ∧
  assigned_agent_row m
    = foldl (λ a b, dict_set b (VInt (assigned_to_agent latest b)) a)
        (assigned_agent_row acc) bots ∧
  lost_row m = foldl (λ a b, dict_set b (VInt (lost latest b)) a) (lost_row acc) bots ∧
  converted_row m
    = foldl (λ a b, dict_set b (VInt (converted latest b)) a) (converted_row acc) bots.
Proof.
  revert acc. induction bots as [|b bots IH]; intros acc.
  - by repeat split.
  - apply (IH (loop_body d latest acc b)).
Qed.

(** The metric rows after the loop, when no bot is called "Metric": the
    label, then one figure per bot, in the order of the bots. *)
Lemma report_data_after_loop d latest bots :
  NoDup bots → Str "Metric" ∉ bots →
  report_data (foldl (loop_body d latest) initial_rows bots)
  = zip_with (λ lab vals, (Str "Metric", VStr lab) :: zip bots vals)
      metric_labels (summary_values d latest bots).
Proof.
  intros Hnd Hm.
  destruct (loop_rows d latest bots initial_rows)
    as (E1 & E2 & E3 & E4 & E5 & E6 & E7 & E8 & E9 & E10).
  unfold report_data. rewrite E1, E2, E3, E4, E5, E6, E7, E8, E9, E10.
  assert (Hfresh : ∀ (lab : string) b, b ∈ bots →
            b ∉ ([(Str "Metric", VStr lab)] : dict float).*1).
  { intros lab b Hb Hin. apply list_elem_of_singleton in Hin. simpl in Hin. by subst. }
  unfold initial_rows. cbn [unique_leads_row total_attempts_row avg_attempts_row
    connected_row connectivity_perc_row not_connected_row follow_up_row
    assigned_agent_row lost_row converted_row].
  rewrite !foldl_dict_set by auto.
  unfold metric_labels, summary_values. cbn [zip_with app].
  assert (Hzip : ∀ f : cell → value float, (λ b, (b, f b)) <$> bots = zip bots (f <$> bots)).
  { intros f. clear. induction bots as [|b bots IH]; csimpl; [done|]. by f_equal. }
  by rewrite !Hzip.
Qed.

Lemma fst_zip_fun {A B} (f : A → B) (l : list A) :
  ((λ x, (x, f x)) <$> l).*1 = l.
Proof. rewrite <- list_fmap_compose. apply list_fmap_id. Qed.

Lemma zip_fmap_fun {A B} (f : A → B) (l : list A) :
  zip l (f <$> l) = (λ x, (x, f x)) <$> l.
Proof. induction l as [|x l IH]; csimpl; [done|]. by f_equal. Qed.

(** The summary of a data set none of whose bots is called "Metric":
    the ten labels as index, the sorted bots as columns, and the figures. *)
Lemma summary_shape d bots :
  py_sorted (unique (series "bot" (rows d))) = inr bots →
  Str "Metric" ∉ bots →
  summarize d
  = inr ({| index := VStr <$> metric_labels;
            report_columns := bots;
            report_values := summary_values d (with_flags (latest_per_lead_of d)) bots |},
         sheets_of (latest_per_lead_of d))
  ∧ Sorted cell_le bots ∧ NoDup bots
  ∧ (∀ b, b ∈ bots ↔ b ∈ series "bot" (rows d)).
Proof.
  intros Hs Hm. destruct (py_sorted_inr _ _ Hs) as [Hsorted Hperm].
  assert (Hnd : NoDup bots) by (rewrite Hperm; apply NoDup_unique).
  split_and!; try done.
  2:{ intros b. by rewrite Hperm, elem_of_unique. }
  unfold summarize. rewrite Hs. cbv zeta.
  rewrite report_data_after_loop by done.
  set (latest := with_flags (latest_per_lead_of d)).
  unfold metric_labels, summary_values. cbn [zip_with].
  rewrite !zip_fmap_fun.
  unfold pd_DataFrame, set_index. cbn [fmap list_fmap concat t_columns t_rows].

  rewrite unique_app_same.
  - cbn [fst]. rewrite !fst_zip_fun. cbn [position].
    rewrite bool_decide_eq_true_2 by done.
    rewrite !row_of_dict by done. reflexivity.
  - cbn [fst]. rewrite fst_zip_fun. by apply NoDup_cons.
  - intros x. cbn [fst]. rewrite !fst_zip_fun.
    rewrite !elem_of_app, !elem_of_cons, elem_of_nil. tauto.
Qed.

(** A call on a data set that has the required columns, whose bots can
    be sorted and none of which is called "Metric", returns that summary
    and the seven tables. *)
Lemma calculate_report_returns df w d bots :
  frames w !! df = Some d → has_required (columns d) = true →
  rows d = [] ∨ (∃ s, Str s ∈ series "outcome" (rows d)) →
  py_sorted (unique (series "bot" (rows (normalize d)))) = inr bots →
  Str "Metric" ∉ bots →
  (calculate_report df w).1
  = Ret (Some {| index := VStr <$> metric_labels;
                 report_columns := bots;
                 report_values :=
                   summary_values (normalize d)
                     (with_flags (latest_per_lead_of (normalize d))) bots |},
         Some (sheets_of (latest_per_lead_of (normalize d)))).
Proof.
  intros Hd Hr Hstr Hs Hm.
  assert (Ho : "outcome" ∈ columns d).
  { apply has_required_elem; [done|]. unfold required_cols.
    do 2 apply list_elem_of_further. apply list_elem_of_here. }
  rewrite (calculate_report_run _ _ _ Hd), bool_decide_eq_true_2, Hr,
    (outcome_strings _ Hstr) by done.
  destruct (summary_shape _ _ Hs Hm) as [-> _]. done.
Qed.

End SummaryShape.

(** ** The recording URL and the scenario of the specification *)

Section RecordingUrl.
Context {P : Pandas} {L : PandasLaws P}.

(** Line 21 on one row: a recording that is a string is trimmed, a missing
    one becomes the trimmed empty string. *)
Lemma coerce_row_recording_url_Str r s :
  cell_at "recording_url" r = Str s →
  cell_at "recording_url" (coerce_row r) = Str (str_strip s).
Proof.
  intros Hs. unfold coerce_row.
  rewrite cell_at_insert, !cell_at_insert_ne, Hs by done.
  unfold fillna, str_method. cbn [isna]. by rewrite astype_str_Str.
Qed.

Lemma coerce_row_recording_url_NaN r :
  cell_at "recording_url" r = NaN →
  cell_at "recording_url" (coerce_row r) = Str (str_strip "").
Proof.
  intros Hs. unfold coerce_row.
  rewrite cell_at_insert, !cell_at_insert_ne, Hs by done.
  unfold fillna, str_method. cbn [isna]. by rewrite astype_str_Str.
Qed.

End RecordingUrl.

(** The scenario of the specification: one lead of bot A, two attempts,
    the later one lost and recorded. *)
Example scenario_summary :
  returned_report (run scenario)
  = Some {| index := VStr <$> @metric_labels;
            report_columns := [Str "A"];
            report_values :=
              [[VInt 1]; [VInt 2]; [VFloat (200 # 100)%Q]; [VInt 1];
               [VFloat (100 # 100)%Q]; [VInt 0]; [VInt 0]; [VInt 0]; [VInt 1];
               [VInt 0]] |}
  ∧ sheet_sizes (returned_sheets (run scenario))
    = [("connected", 1%nat); ("not_connected", 0%nat); ("converted", 0%nat);
       ("lost", 1%nat); ("assigned_to_human_agent", 0%nat); ("follow_up", 0%nat);
       ("lead_summary", 1%nat)].
Proof. split; vm_compute; reflexivity. Qed.

(** A data set that lacks [date] and [recording_url]: the message names
    both, nothing is returned, and the outcome has been rewritten. *)
Example no_date_url_reported :
  run no_date_url
  = (Ret (None, None),
     {| frames := [@set_outcome RefLib.lib no_date_url];
        st_messages := ["Missing columns: date, recording_url"] |})
  ∧ series_after "outcome" (run no_date_url) = [[Str "lost"]].
Proof. split; vm_compute; reflexivity. Qed.

(** * Further properties of [calculate_report] *)

(** ** The column check *)

Lemma missing_cols_nonempty cols :
  has_required cols = false → missing_cols cols ≠ [].
Proof.
  intros Hr E. rewrite <- not_true_iff_false in Hr. apply Hr.
  unfold has_required. apply forallb_forall. intros c Hc%list_elem_of_In.
  apply bool_decide_eq_true. destruct (decide (c ∈ cols)) as [|Hn]; [done|].
  assert (c ∈ missing_cols cols) as Hin by (by apply elem_of_missing_cols).
  rewrite E in Hin. by apply elem_of_nil in Hin.
Qed.

Section ColumnCheck.
Context {P : Pandas}.

(** X1: when the data set has the [outcome] column, with a string among
    its values, and lacks another required column, the call returns
    [(None, None)] and shows one message,
    "Missing columns: " followed by the required columns that are absent,
    all of them and only them, in the order of [required_cols] and joined
    by ", ".  No frame is created, and the only change to the caller's
    frame is the rewritten [outcome] column. *)
Theorem X1_missing_columns_message df w d :
  frames w !! df = Some d → "outcome" ∈ columns d →
  (∃ s, Str s ∈ series "outcome" (rows d)) →
  has_required (columns d) = false →
  ∃ missing,
    calculate_report df w
    = (Ret (None, None),
       {| frames := <[df := set_outcome d]> (frames w);
          st_messages := st_messages w ++
            ["Missing columns: " ++ String.concat ", " missing] |})
    ∧ missing ≠ []
    ∧ (∀ c, c ∈ missing ↔ c ∈ required_cols ∧ c ∉ columns d)
    ∧ missing `sublist_of` required_cols
    ∧ length (frames (calculate_report df w).2) = length (frames w).
Proof.
  intros Hd Ho Hs Hr. exists (missing_cols (columns d)).
  rewrite (missing_columns_reported _ _ _ Hd Ho (or_intror Hs) Hr). split_and!.
  - done.
  - by apply missing_cols_nonempty.
  - apply elem_of_missing_cols.
  - apply sublist_filter.
  - simpl. apply length_insert.
Qed.

End ColumnCheck.

Lemma X1_witness :
  ∃ missing,
    run no_date_url
    = (Ret (None, None),
       {| frames := <[0%nat := @set_outcome RefLib.lib no_date_url]> (frames (world_of no_date_url));
          st_messages := st_messages (world_of no_date_url) ++
            ["Missing columns: " ++ String.concat ", " missing] |})
    ∧ missing ≠ []
    ∧ (∀ c, c ∈ missing ↔ c ∈ required_cols ∧ c ∉ columns no_date_url)
    ∧ missing `sublist_of` required_cols
    ∧ length (frames (run no_date_url).2) = length (frames (world_of no_date_url)).
Proof.
  apply (@X1_missing_columns_message RefLib.lib 0%nat (world_of no_date_url) no_date_url).
  - reflexivity.
  - change ("outcome" ∈ ["bot"; "mobile_number"; "outcome"; "contacted"]).
    do 2 apply list_elem_of_further. apply list_elem_of_here.
  - apply existsb_is_str. vm_compute. reflexivity.
  - reflexivity.
Defined.

(** ** Leads and attempts *)

Lemma unique_length `{EqDecision A} (l : list A) : (length (unique l) ≤ length l)%nat.
Proof.
  induction l as [|x l IH]; simpl; [done|].
  pose proof (length_filter (λ y, y ≠ x) (unique l)). lia.
Qed.

(** X9: a bot never has more unique leads than attempts: the distinct
    mobile numbers among the attempts of a bot are at most as many as
    those attempts. *)
Theorem X9_unique_leads_le_total_attempts d b :
  0 ≤ unique_leads d b ≤ total_attempts d b.
Proof.
  unfold unique_leads, total_attempts, nunique. split; [lia|].
  apply inj_le. etrans; [apply unique_length|].
  etrans; [apply length_filter|]. by rewrite series_length.
Qed.

Section Leads.
Context {P : Pandas} {L : PandasLaws P}.

(** X10: the latest-state frame has at most one record per lead: no two
    of its rows have the same bot and mobile number; and the lead of every
    record is the lead of some attempt of the data set, with a bot and a
    mobile number that are not missing. *)
Theorem X10_one_record_per_lead d :
  NoDup (lead_of <$> rows (latest_per_lead_of d))
  ∧ ∀ r, r ∈ rows (latest_per_lead_of d) →
      cell_at "bot" r ≠ NaN ∧ cell_at "mobile_number" r ≠ NaN ∧
      ∃ a, a ∈ rows d ∧ lead_of a = lead_of r.
Proof.
  split.
  - rewrite latest_rows, <- list_fmap_compose.
    apply NoDup_fmap_2_strong; [|apply NoDup_group_keys].
    intros k1 k2 H1 H2 Heq.
    destruct (group_keys_lead _ _ H1) as (b1 & m1 & -> & _).
    destruct (group_keys_lead _ _ H2) as (b2 & m2 & -> & _).
    unfold lead_of in Heq. simpl in Heq.
    rewrite !last_row_bot, !last_row_mobile in Heq. congruence.
  - intros r (b & m & Hb & Hm & Hk & _ & Hbot & Hmob)%elem_of_latest.
    rewrite Hbot, Hmob. split_and!; try done.
    apply elem_of_group_keys in Hk as [_ (a & Ha & Hkey)].
    rewrite sort_values_perm in Ha. exists a. split; [done|].
    injection Hkey as E1 E2. unfold lead_of. by rewrite E1, E2, Hbot, Hmob.
Qed.

End Leads.

Lemma X10_witness :
  NoDup (lead_of <$> rows (@latest_per_lead_of RefLib.lib (@normalize RefLib.lib scenario)))
  ∧ ∀ r, r ∈ rows (@latest_per_lead_of RefLib.lib (@normalize RefLib.lib scenario)) →
      cell_at "bot" r ≠ NaN ∧ cell_at "mobile_number" r ≠ NaN ∧
      ∃ a, a ∈ rows (@normalize RefLib.lib scenario) ∧ lead_of a = lead_of r.
Proof. apply (@X10_one_record_per_lead RefLib.lib RefLaws.laws). Defined.

(** ** The category tables *)

(** Of the three terminal outcomes and "follow up", a record has exactly
    one. *)
Lemma outcome_class r :
  (is_converted r = true ∧ is_lost r = false ∧ is_assigned r = false
     ∧ is_follow_up r = false)
  ∨ (is_converted r = false ∧ is_lost r = true ∧ is_assigned r = false
     ∧ is_follow_up r = false)
  ∨ (is_converted r = false ∧ is_lost r = false ∧ is_assigned r = true
     ∧ is_follow_up r = false)
  ∨ (is_converted r = false ∧ is_lost r = false ∧ is_assigned r = false
     ∧ is_follow_up r = true).
Proof.
  unfold is_converted, is_lost, is_assigned, is_follow_up, isin, follow_up_exclude.
  destruct (cell_at "outcome" r) as [|s| | |]; simpl; try tauto.
  repeat case_bool_decide; simplify_eq; simpl; tauto.
Qed.

Lemma filter2_perm {A} (p q : A → bool) (l : list A) :
  (∀ x, q x = negb (p x)) →
  filter (λ x, p x = true) l ++ filter (λ x, q x = true) l ≡ₚ l.
Proof.
  intros Hq. induction l as [|x l IH]; [done|].
  pose proof (Hq x) as Hx.
  destruct (p x) eqn:E; simpl in Hx;
    repeat first [rewrite filter_cons_True by congruence
                 |rewrite filter_cons_False by congruence].
  - simpl. by f_equiv.
  - rewrite <- Permutation_middle. by f_equiv.
Qed.

Lemma filter4_perm {A} (p1 p2 p3 p4 : A → bool) (l : list A) :
  (∀ x, (p1 x = true ∧ p2 x = false ∧ p3 x = false ∧ p4 x = false)
        ∨ (p1 x = false ∧ p2 x = true ∧ p3 x = false ∧ p4 x = false)
        ∨ (p1 x = false ∧ p2 x = false ∧ p3 x = true ∧ p4 x = false)
        ∨ (p1 x = false ∧ p2 x = false ∧ p3 x = false ∧ p4 x = true)) →
  filter (λ x, p1 x = true) l ++ filter (λ x, p2 x = true) l
    ++ filter (λ x, p3 x = true) l ++ filter (λ x, p4 x = true) l ≡ₚ l.
Proof.
  intros H. induction l as [|x l IH]; [done|].
  destruct (H x) as [(E1&E2&E3&E4)|[(E1&E2&E3&E4)|[(E1&E2&E3&E4)|(E1&E2&E3&E4)]]];
    repeat first [rewrite filter_cons_True by congruence
                 |rewrite filter_cons_False by congruence];
    cbn [app]; rewrite <- ?Permutation_middle; by f_equiv.
Qed.

Section Tables.
Context {P : Pandas}.

(** X6: the category tables split the latest-state records twice over.
    Every record is in one of the tables [connected] and [not_connected],
    and in one of the tables [converted], [lost], [assigned_to_human_agent]
    and [follow_up]: the tables of each group, put together, are the
    records of the latest-state frame, each one once. *)
Theorem X6_tables_partition_the_leads d :
  let sheets := sheets_of (latest_per_lead_of d) in
  sheet "connected" sheets ++ sheet "not_connected" sheets
    ≡ₚ rows (latest_per_lead_of d)
  ∧ sheet "converted" sheets ++ sheet "lost" sheets
      ++ sheet "assigned_to_human_agent" sheets ++ sheet "follow_up" sheets
    ≡ₚ rows (latest_per_lead_of d).
Proof.
  intros sheets. split.
  - apply (filter2_perm is_connected is_not_connected).
    intros r. unfold is_connected, is_not_connected. by rewrite negb_involutive.
  - apply (filter4_perm is_converted is_lost is_assigned is_follow_up).
    apply outcome_class.
Qed.

End Tables.

(** ** The figures of the bots *)

Lemma filter4_length {A} (p1 p2 p3 p4 : A → bool) (l : list A) :
  (∀ x, (p1 x = true ∧ p2 x = false ∧ p3 x = false ∧ p4 x = false)
        ∨ (p1 x = false ∧ p2 x = true ∧ p3 x = false ∧ p4 x = false)
        ∨ (p1 x = false ∧ p2 x = false ∧ p3 x = true ∧ p4 x = false)
        ∨ (p1 x = false ∧ p2 x = false ∧ p3 x = false ∧ p4 x = true)) →
  (length (filter (λ x, p1 x = true) l) + length (filter (λ x, p2 x = true) l)
   + length (filter (λ x, p3 x = true) l) + length (filter (λ x, p4 x = true) l))%nat
  = length l.
Proof.
  intros H. rewrite <- (Permutation_length (filter4_perm p1 p2 p3 p4 l H)).
  rewrite !length_app. lia.
Qed.

Lemma outcome_class_flag_row r :
  (is_follow_up (flag_row r) = is_follow_up r)
  ∧ (is_assigned (flag_row r) = is_assigned r)
  ∧ (is_lost (flag_row r) = is_lost r)
  ∧ (is_converted (flag_row r) = is_converted r).
Proof.
  unfold is_follow_up, is_assigned, is_lost, is_converted.
  by rewrite flag_row_other by not_in_list.
Qed.

Section Figures.
Context {P : Pandas} {L : PandasLaws P}.

(** X7: for every bot, the leads to follow up, the leads assigned to a
    human agent, the lost leads and the converted leads add up to the
    unique leads: the four outcome figures of a column of the summary
    account for every lead of the bot once. *)
Theorem X7_outcome_figures_add_up d b :
  let latest := with_flags (latest_per_lead_of d) in
  follow_up_count latest b + assigned_to_agent latest b + lost latest b
    + converted latest b
  = unique_leads d b.
Proof.
  intros latest.
  unfold follow_up_count, assigned_to_agent, lost, converted, latest.
  rewrite !count_leads_length by (apply bot_latest_NoDup || apply bot_latest_mobile).
  rewrite <- bot_latest_length, <- !Nat2Z.inj_add. f_equal.
  rewrite <- (filter4_length is_converted is_lost is_assigned is_follow_up
                (rows_of_bot b (rows (with_flags (latest_per_lead_of d)))))
    by (intros r; apply outcome_class).
  lia.
Qed.

End Figures.

Lemma X7_witness :
  let latest := with_flags (@latest_per_lead_of RefLib.lib (@normalize RefLib.lib scenario)) in
  follow_up_count latest (Str "A") + assigned_to_agent latest (Str "A")
    + lost latest (Str "A") + converted latest (Str "A")
  = unique_leads (@normalize RefLib.lib scenario) (Str "A").
Proof. apply (@X7_outcome_figures_add_up RefLib.lib RefLaws.laws). Defined.

(** ** The rows of the summary, added up *)





Section Totals.
Context {P : Pandas} {L : PandasLaws P}.


End Totals.


(** ** The record of a lead and its last attempt *)

Section Record.
Context {P : Pandas} {L : PandasLaws P}.

(** X2: every record of the latest-state frame goes back to one attempt
    of its lead in the normalized data set: the record has the date of
    that attempt, no attempt of the lead has a later date, and in every
    column in which that attempt has a value the record has the same
    value. *)
Theorem X2_record_is_last_attempt d r :
  r ∈ rows (latest_per_lead_of (normalize d)) →
  ∃ a, a ∈ rows (normalize d) ∧ lead_of a = lead_of r ∧
    cell_at "date" r = cell_at "date" a ∧
    (∀ a', a' ∈ rows (normalize d) → lead_of a' = lead_of r →
           time_of a' ≤ time_of a) ∧
    (∀ c, c ∈ columns (normalize d) → cell_at c a ≠ NaN →
          cell_at c r = cell_at c a).
Proof.
  intros (b & m & Hb & Hm & Hk & Hr & Hbot & Hmob)%elem_of_latest.
  destruct (latest_is_last_attempt d b m Hk) as (a & Hlast & Hmax & Hcols & Hdate).
  apply last_Some_elem_of in Hlast.
  apply list_elem_of_filter in Hlast as [Hkey Ha].
  rewrite sort_values_perm in Ha. injection Hkey as Hab Ham.
  assert (Hlead : lead_of r = (b, m)) by (unfold lead_of; by rewrite Hbot, Hmob).
  exists a. rewrite Hlead. split_and!.
  - done.
  - unfold lead_of. by rewrite Hab, Ham.
  - by rewrite Hr.
  - intros a' Ha' Hl'. apply Hmax. apply list_elem_of_filter. split.
    + unfold lead_of in Hl'. injection Hl' as E1 E2. unfold key_of. simpl.
      by rewrite E1, E2.
    + by rewrite sort_values_perm.
  - intros c Hc Hn.
    destruct (decide (c = "bot")) as [->|H1]; [by rewrite Hbot, Hab|].
    destruct (decide (c = "mobile_number")) as [->|H2]; [by rewrite Hmob, Ham|].
    rewrite Hr. by apply Hcols.
Qed.

End Record.

Lemma X2_witness :
  scenario_record ∈ rows (@latest_per_lead_of RefLib.lib (@normalize RefLib.lib scenario)) ∧
  ∃ a, a ∈ rows (@normalize RefLib.lib scenario) ∧ lead_of a = lead_of scenario_record ∧
    cell_at "date" scenario_record = cell_at "date" a ∧
    (∀ a', a' ∈ rows (@normalize RefLib.lib scenario) →
           lead_of a' = lead_of scenario_record → time_of a' ≤ time_of a) ∧
    (∀ c, c ∈ columns (@normalize RefLib.lib scenario) → cell_at c a ≠ NaN →
          cell_at c scenario_record = cell_at c a).
Proof.
  assert (H : scenario_record
              ∈ rows (@latest_per_lead_of RefLib.lib (@normalize RefLib.lib scenario))).
  { assert (E : rows (@latest_per_lead_of RefLib.lib (@normalize RefLib.lib scenario))
                = [scenario_record]) by (vm_compute; reflexivity).
    rewrite E. apply list_elem_of_here. }
  split; [exact H|].
  exact (@X2_record_is_last_attempt RefLib.lib RefLaws.laws scenario scenario_record H).
Defined.

(** ** What becomes of the rows of the data set *)


Lemma kept_zip_insert c (rs : list (gmap string cell)) vals :
  c ≠ "date" →
  series c (filter (λ r, notna (cell_at "date" r) && true = true)
              (zip_with (λ r v, <["date" := v]> r) rs vals))
  = kept_values (series c rs) vals.
Proof.
  intros Hc. unfold kept_values. revert vals.
  induction rs as [|r rs IH]; intros [|v vals]; try done.
  simpl zip_with. csimpl. rewrite !filter_cons, cell_at_insert, andb_true_r. simpl.
  destruct (decide (notna v = true)); csimpl; rewrite IH; [|done].
  by rewrite cell_at_insert_ne by done.
Qed.

Section Rows.
Context {P : Pandas}.


(** X11: normalization leaves the mobile number, and every column other
    than [outcome], [date], [contacted], [bot] and [recording_url], as it
    is in the data set: the column of the normalized data set holds the
    values of the rows whose date was parsed, in their order.  The
    [outcome] column holds the trimmed, lower-cased outcomes of those
    rows. *)
Theorem X11_columns_kept_verbatim d c :
  c ∉ ["outcome"; "date"; "contacted"; "bot"; "recording_url"] →
  series c (rows (normalize d))
    = kept_values (series c (rows d)) (to_datetime (series "date" (rows d)))
  ∧ series "outcome" (rows (normalize d))
    = kept_values (outcome_normalized (series "outcome" (rows d)))
        (to_datetime (series "date" (rows d))).
Proof.
  intros Hc.
  assert (Hne : ∀ x, x ∈ ["outcome"; "date"; "contacted"; "bot"; "recording_url"] → c ≠ x)
    by (intros x Hx ->; done).
  assert (Hdate : series "date" (rows (set_outcome d)) = series "date" (rows d)).
  { unfold series. rewrite set_outcome_rows, <- list_fmap_compose.
    apply list_fmap_ext. intros _ r _. simpl. by rewrite cell_at_insert_ne. }
  assert (Hkept : ∀ c', c' ≠ "date" → c' ≠ "contacted" → c' ≠ "bot" →
            c' ≠ "recording_url" →
            series c' (rows (normalize d))
            = kept_values (series c' (rows (set_outcome d)))
                (to_datetime (series "date" (rows d)))).
  { intros c' H1 H2 H3 H4.
    transitivity (series c' (rows (dated d))).
    - unfold series. rewrite normalize_rows, <- list_fmap_compose.
      apply list_fmap_ext. intros _ r _. simpl. by apply coerce_row_other.
    - unfold dated, dropna_rows, select. cbn [rows forallb].
      unfold set_date at 1. cbn [rows assign].
      rewrite kept_zip_insert by done. by rewrite Hdate. }
  split.
  - rewrite Hkept; try (apply Hne; repeat first [apply list_elem_of_here
                                                |apply list_elem_of_further]).
    f_equal. unfold series. rewrite set_outcome_rows, <- list_fmap_compose.
    apply list_fmap_ext. intros _ r _. simpl. apply cell_at_insert_ne.
    symmetry. apply Hne, list_elem_of_here.
  - rewrite Hkept by done. f_equal.
    unfold series, outcome_normalized.
    rewrite set_outcome_rows, <- !list_fmap_compose.
    apply list_fmap_ext. intros _ r _. simpl. apply cell_at_insert.
Qed.

End Rows.

Lemma X11_witness :
  series "mobile_number" (rows (@normalize RefLib.lib scenario))
    = kept_values (series "mobile_number" (rows scenario))
        (@to_datetime RefLib.lib (series "date" (rows scenario)))
  ∧ series "outcome" (rows (@normalize RefLib.lib scenario))
    = kept_values (@outcome_normalized RefLib.lib (series "outcome" (rows scenario)))
        (@to_datetime RefLib.lib (series "date" (rows scenario))).
Proof.
  apply (@X11_columns_kept_verbatim RefLib.lib scenario "mobile_number").
  not_in_list.
Defined.

(** ** The bots of the summary *)



Section Bots.
Context {P : Pandas}.





End Bots.

Section NoRows.
Context {P : Pandas} {L : PandasLaws P}.

Lemma sort_values_nil ks : sort_values ks [] = [].
Proof. apply Permutation_nil_r, sort_values_perm. Qed.

(** X5: a data set that has the required columns, whose [outcome] column
    holds a string, and that has not one row whose date can be parsed.
    The call returns a
    summary with the ten metric labels as index and no column, and the
    seven tables, all of them without rows. *)
Theorem X5_no_parsable_date df w d :
  frames w !! df = Some d → has_required (columns d) = true →
  (∃ s, Str s ∈ series "outcome" (rows d)) →
  Forall (λ c, c = NaN) (to_datetime (series "date" (rows d))) →
  ∃ sheets,
    (calculate_report df w).1
    = Ret (Some {| index := VStr <$> metric_labels;
                   report_columns := [];
                   report_values := replicate 10 [] |},
           Some sheets)
    ∧ sheet_sizes sheets
      = [("connected", 0%nat); ("not_connected", 0%nat); ("converted", 0%nat);
         ("lost", 0%nat); ("assigned_to_human_agent", 0%nat); ("follow_up", 0%nat);
         ("lead_summary", 0%nat)].
Proof.
  intros Hd Hr Hout Hdates.
  assert (Hrows : rows (normalize d) = []).
  { apply nil_length_inv. rewrite normalize_length, dated_length.
    rewrite filter_none; [done|].
    eapply Forall_impl; [exact Hdates|]. by intros c ->. }
  assert (Hlatest : rows (latest_per_lead_of (normalize d)) = []).
  { rewrite latest_rows, Hrows, sort_values_nil. reflexivity. }
  exists (sheets_of (latest_per_lead_of (normalize d))). split.
  - rewrite (calculate_report_returns df w d [] Hd Hr (or_intror Hout)); [done|..].
    + rewrite Hrows. reflexivity.
    + apply not_elem_of_nil.
  - unfold sheets_of, sheet_sizes, select. cbn [fmap list_fmap fst snd rows].
    rewrite project_rows, with_flags_rows, Hlatest.
    cbn [fmap list_fmap]. rewrite sort_values_nil. reflexivity.
Qed.

End NoRows.



Lemma X5_witness :
  ∃ sheets,
    (run bad_dates).1
    = Ret (Some {| index := VStr <$> metric_labels;
                   report_columns := [];
                   report_values := replicate 10 [] |},
           Some sheets)
    ∧ sheet_sizes sheets
      = [("connected", 0%nat); ("not_connected", 0%nat); ("converted", 0%nat);
         ("lost", 0%nat); ("assigned_to_human_agent", 0%nat); ("follow_up", 0%nat);
         ("lead_summary", 0%nat)].
Proof.
  apply (@X5_no_parsable_date RefLib.lib RefLaws.laws 0%nat (world_of bad_dates)
           bad_dates).
  - reflexivity.
  - reflexivity.
  - apply existsb_is_str. vm_compute. reflexivity.
  - assert (E : @to_datetime RefLib.lib (series "date" (rows bad_dates)) = [NaN])
      by (vm_compute; reflexivity).
    rewrite E. by apply Forall_cons.
Defined.

Section LeadSummary.
Context {P : Pandas} {L : PandasLaws P}.

Lemma summary_row_cell c r :
  c ∈ lead_summary_cols → cell_at c (summary_row r) = cell_at c (flag_row r).
Proof. apply project_cell. Qed.

Lemma Flag_bool_decide (p : gmap string cell → bool) (rs : list (gmap string cell)) r :
  r ∈ rs → Flag (p r) = Flag (bool_decide (r ∈ filter (λ r, p r = true) rs)).
Proof.
  intros Hr. f_equal. destruct (p r) eqn:E; symmetry.
  - apply bool_decide_eq_true_2, list_elem_of_filter. by split.
  - apply bool_decide_eq_false_2. rewrite list_elem_of_filter, E. by intros [? _].
Qed.

(** X13: the table [lead_summary] has one row for every record of the
    latest-state frame.  The row has the ten columns of lines 58-61 and no
    other, so not the recording; its bot, mobile number, date and outcome
    are those of the record; and each of its six flags is true exactly if
    the record is in the category table of that name. *)
Theorem X13_lead_summary_rows (latest : DataFrame) :
  sheet "lead_summary" (sheets_of latest) ≡ₚ summary_row <$> rows latest
  ∧ ∀ r, r ∈ rows latest →
      (∀ c, is_Some (summary_row r !! c) ↔ c ∈ lead_summary_cols)
      ∧ (∀ c, c ∈ ["bot"; "mobile_number"; "date"; "outcome"] →
              cell_at c (summary_row r) = cell_at c r)
      ∧ cell_at "connected_flag" (summary_row r)
        = Flag (bool_decide (r ∈ sheet "connected" (sheets_of latest)))
      ∧ cell_at "not_connected_flag" (summary_row r)
        = Flag (bool_decide (r ∈ sheet "not_connected" (sheets_of latest)))
      ∧ cell_at "converted_flag" (summary_row r)
        = Flag (bool_decide (r ∈ sheet "converted" (sheets_of latest)))
      ∧ cell_at "lost_flag" (summary_row r)
        = Flag (bool_decide (r ∈ sheet "lost" (sheets_of latest)))
      ∧ cell_at "assigned_to_agent_flag" (summary_row r)
        = Flag (bool_decide (r ∈ sheet "assigned_to_human_agent" (sheets_of latest)))
      ∧ cell_at "follow_up_flag" (summary_row r)
        = Flag (bool_decide (r ∈ sheet "follow_up" (sheets_of latest))).
Proof.
  split.
  - change (sheet "lead_summary" (sheets_of latest))
      with (sort_values [("bot", true); ("date", false)]
              (rows (project lead_summary_cols (with_flags latest)))).
    rewrite sort_values_perm, project_rows, with_flags_rows, <- list_fmap_compose.
    reflexivity.
  - intros r Hr. split_and!.
    + intros c. unfold summary_row.
      rewrite (lookup_list_to_map_fun (λ c, cell_at c (flag_row r))).
      destruct (decide (c ∈ lead_summary_cols)) as [Hc|Hc]; split; try done.
    + intros c Hc. rewrite summary_row_cell.
      * apply flag_row_other. intros Hf. revert Hc.
        repeat (apply elem_of_cons in Hf as [->|Hf]; [not_in_list|]).
        by apply elem_of_nil in Hf.
      * unfold lead_summary_cols.
        repeat (apply elem_of_cons in Hc as [->|Hc];
                [repeat first [apply list_elem_of_here | apply list_elem_of_further]|]).
        by apply elem_of_nil in Hc.
    + rewrite summary_row_cell
        by (unfold lead_summary_cols;
            repeat first [apply list_elem_of_here | apply list_elem_of_further]).
      unfold flag_row. rewrite !cell_at_insert_ne, cell_at_insert by done.
      by apply (Flag_bool_decide is_connected).
    + rewrite summary_row_cell
        by (unfold lead_summary_cols;
            repeat first [apply list_elem_of_here | apply list_elem_of_further]).
      unfold flag_row. rewrite !cell_at_insert_ne, cell_at_insert by done.
      by apply (Flag_bool_decide is_not_connected).
    + rewrite summary_row_cell
        by (unfold lead_summary_cols;
            repeat first [apply list_elem_of_here | apply list_elem_of_further]).
      unfold flag_row. rewrite !cell_at_insert_ne, cell_at_insert by done.
      by apply (Flag_bool_decide is_converted).
    + rewrite summary_row_cell
        by (unfold lead_summary_cols;
            repeat first [apply list_elem_of_here | apply list_elem_of_further]).
      unfold flag_row. rewrite !cell_at_insert_ne, cell_at_insert by done.
      by apply (Flag_bool_decide is_lost).
    + rewrite summary_row_cell
        by (unfold lead_summary_cols;
            repeat first [apply list_elem_of_here | apply list_elem_of_further]).
      unfold flag_row. rewrite !cell_at_insert_ne, cell_at_insert by done.
      by apply (Flag_bool_decide is_assigned).
    + rewrite summary_row_cell
        by (unfold lead_summary_cols;
            repeat first [apply list_elem_of_here | apply list_elem_of_further]).
      unfold flag_row. rewrite cell_at_insert.
      by apply (Flag_bool_decide is_follow_up).
Qed.

End LeadSummary.


Lemma X13_witness :
  sheet "lead_summary" (@sheets_of RefLib.lib scenario) ≡ₚ summary_row <$> rows scenario
  ∧ ∀ r, r ∈ rows scenario →
      (∀ c, is_Some (summary_row r !! c) ↔ c ∈ lead_summary_cols)
      ∧ (∀ c, c ∈ ["bot"; "mobile_number"; "date"; "outcome"] →
              cell_at c (summary_row r) = cell_at c r)
      ∧ cell_at "connected_flag" (summary_row r)
        = Flag (bool_decide (r ∈ sheet "connected" (@sheets_of RefLib.lib scenario)))
      ∧ cell_at "not_connected_flag" (summary_row r)
        = Flag (bool_decide (r ∈ sheet "not_connected" (@sheets_of RefLib.lib scenario)))
      ∧ cell_at "converted_flag" (summary_row r)
        = Flag (bool_decide (r ∈ sheet "converted" (@sheets_of RefLib.lib scenario)))
      ∧ cell_at "lost_flag" (summary_row r)
        = Flag (bool_decide (r ∈ sheet "lost" (@sheets_of RefLib.lib scenario)))
      ∧ cell_at "assigned_to_agent_flag" (summary_row r)
        = Flag (bool_decide
                  (r ∈ sheet "assigned_to_human_agent" (@sheets_of RefLib.lib scenario)))
      ∧ cell_at "follow_up_flag" (summary_row r)
        = Flag (bool_decide (r ∈ sheet "follow_up" (@sheets_of RefLib.lib scenario))).
Proof. exact (@X13_lead_summary_rows RefLib.lib RefLaws.laws scenario). Defined.

